(** * The Gemini image-edit adapter and its encoder

    A shallow embedding of [services/geminiService.ts] (module
    initialisation and [editImageWithPrompt]) and of the encoder
    [fileToGenerativePart], with the properties the specification states
    about them. *)

From Stdlib Require Import NArith ZArith Lia FunInd Ascii.
From stdpp Require Import base option list strings gmap.

Local Open Scope string_scope.

(** ** JavaScript strings and thrown values *)

Module Js.

(** [String.prototype.startsWith] on the characters of a string. *)
Fixpoint startsWith (needle hay : string) : bool :=
  match needle, hay with
  | EmptyString, _ => true
  | String _ _, EmptyString => false
  | String a n, String b h => if Ascii.eqb a b then startsWith n h else false
  end.

(** [String.prototype.includes]: the needle starts at some position. *)
Fixpoint includes (needle hay : string) : bool :=
  startsWith needle hay ||
  match hay with
  | EmptyString => false
  | String _ h => includes needle h
  end.

(** [String.prototype.split] with a one-character separator; the result
    always holds at least one piece. *)
Fixpoint split (sep : Ascii.ascii) (s : string) : list string :=
  match s with
  | EmptyString => [EmptyString]
  | String c rest =>
      if Ascii.eqb c sep then EmptyString :: split sep rest
      else match split sep rest with
           | piece :: pieces => String c piece :: pieces
           | [] => [String c EmptyString]
           end
  end.

(** Truthiness of a value of type [string | null] (or
    [string | undefined]): the empty string is falsy. *)
Definition truthy (v : option string) : bool :=
  match v with
  | Some s => negb (String.eqb s "")
  | None => false
  end.

(** What a template literal prints for a [string | undefined]. *)
Definition template (v : option string) : string :=
  match v with
  | Some s => s
  | None => "undefined"
  end.

(** A thrown value: an instance of [Error] with its message, or any other
    value. *)
Inductive Thrown : Type :=
| Error (message : string)
| NotAnError (shown : string).

End Js.

(** ** The data model of the remote call *)

(** [Blob] of the SDK: both fields are optional there. *)
Record Blob : Type := mkBlob {
  data : option string;
  mimeType : option string
}.

(** [Part]: the adapter probes the two fields [inlineData] and [text]. *)
Record Part : Type := mkPart {
  inlineData : option Blob;
  text : option string
}.

Record Content : Type := mkContent { parts : option (list Part) }.

Record Candidate : Type := mkCandidate { content : option Content }.

Record GenerateContentResponse : Type := mkResponse {
  candidates : option (list Candidate)
}.

Inductive Modality : Type := IMAGE | TEXT.

(** The argument of [ai.models.generateContent]. *)
Record GenerateContentParameters : Type := mkRequest {
  req_model : string;
  req_contents : list Part;
  req_responseModalities : list Modality
}.

(** The client built by [new GoogleGenAI({ apiKey })]. *)
Record GoogleGenAI : Type := mkClient { apiKey : option string }.

Record EditResult : Type := mkEditResult {
  image : option string;
  res_text : option string
}.

(** ** The world the module runs in *)

(** What the code does to its surroundings: clients it constructs, remote
    calls it issues, lines it writes with [console.error]. *)
Record World : Type := mkWorld {
  constructed : list GoogleGenAI;
  issued : list (GoogleGenAI * GenerateContentParameters);
  console : list (string * Js.Thrown)
}.

Definition pristine : World := mkWorld [] [] [].

(** What the code cannot decide itself: how the remote call settles, and
    the message the engine puts in the [TypeError] of a property read on
    [undefined]. The wording differs between engines; none of them words it
    with "permission", which the record demands of any platform for the two
    properties the adapter reads. *)
Record Platform : Type := mkPlatform {
  settle : GoogleGenAI -> GenerateContentParameters ->
           Js.Thrown + GenerateContentResponse;
  typeErrorMessage : string -> string;
  typeError_plain :
    forall property,
      In property ["content"; "parts"] ->
      Js.includes "permission" (typeErrorMessage property) = false
}.

(** Computations that read and change the world and may throw. *)
Definition Eff (A : Type) : Type := World -> (Js.Thrown + A) * World.

Definition ret {A} (a : A) : Eff A := fun w => (inr a, w).

Definition throw {A} (e : Js.Thrown) : Eff A := fun w => (inl e, w).

Definition bind {A B} (m : Eff A) (k : A -> Eff B) : Eff B :=
  fun w =>
    match m w with
    | (inr a, w') => k a w'
    | (inl e, w') => (inl e, w')
    end.

(** [try { body } catch (error) { handler }]. *)
Definition try_catch {A} (body : Eff A) (handler : Js.Thrown -> Eff A) : Eff A :=
  fun w =>
    match body w with
    | (inr a, w') => (inr a, w')
    | (inl e, w') => handler e w'
    end.

Declare Scope eff_scope.
Delimit Scope eff_scope with eff.
Notation "x <- m ;; k" := (bind m (fun x => k))
  (at level 100, m at next level, right associativity) : eff_scope.
Notation "m ;;; k" := (bind m (fun _ => k))
  (at level 100, right associativity) : eff_scope.

Definition withClient (w : World) (client : GoogleGenAI) : World :=
  mkWorld (constructed w ++ [client]) (issued w) (console w).

Definition withCall (w : World) (ai : GoogleGenAI)
    (request : GenerateContentParameters) : World :=
  mkWorld (constructed w) (issued w ++ [(ai, request)]) (console w).

Definition withLog (w : World) (label : string) (e : Js.Thrown) : World :=
  mkWorld (constructed w) (issued w) (console w ++ [(label, e)]).

Definition construct (options : GoogleGenAI) : Eff GoogleGenAI :=
  fun w => (inr options, withClient w options).

Definition console_error (label : string) (e : Js.Thrown) : Eff unit :=
  fun w => (inr tt, withLog w label e).

(** [await ai.models.generateContent(request)]: the call is recorded, and a
    rejected promise is a throw at the [await]. *)
Definition generateContent (pf : Platform) (ai : GoogleGenAI)
    (request : GenerateContentParameters) : Eff GenerateContentResponse :=
  fun w => (settle pf ai request, withCall w ai request).

(** ** [services/geminiService.ts] *)

Module GeminiService.

Definition missingKeyMessage : string :=
  "API_KEY environment variable is not set".

Definition model : string := "gemini-2.5-flash-image-preview".

(** The top-level statements of the module, run once when it is loaded;
    [env] is [process.env]. *)
Definition moduleInit (env : gmap string string) : Eff GoogleGenAI :=
  (if negb (Js.truthy (env !! "API_KEY"))
   then throw (Js.Error missingKeyMessage)
   else construct (mkClient (env !! "API_KEY")))%eff.

Definition invalidResponseMessage : string :=
  "Invalid response from the API. No image or text was returned.".

Definition permissionMessage : string :=
  "API key is invalid or missing required permissions.".

Definition genericMessage : string :=
  "Failed to process image with the AI model. Please try again later.".

(** The template literal of the image branch. *)
Definition dataUri (blob : Blob) : string :=
  "data:" +:+ Js.template (mimeType blob) +:+ ";base64," +:+
  Js.template (data blob).

(** One turn of the [for ... of] loop over the pair
    [(editedImage, responseText)]. *)
Definition scanPart (acc : option string * option string) (part : Part)
    : option string * option string :=
  match inlineData part with
  | Some blob => (Some (dataUri blob), snd acc)
  | None => if Js.truthy (text part) then (fst acc, text part) else acc
  end.

Definition scanParts (ps : list Part) (acc : option string * option string)
    : option string * option string :=
  fold_left scanPart ps acc.

(** The guard [response.candidates && response.candidates[0].content.parts]:
    the value the [if] tests, or the [TypeError] of reading a property of
    [undefined]. An array is truthy even when empty. *)
Definition guardedParts (pf : Platform) (response : GenerateContentResponse)
    : Eff (option (list Part)) :=
  match candidates response with
  | None => ret None
  | Some cs =>
      match cs !! 0%nat with
      | None => throw (Js.Error (typeErrorMessage pf "content"))
      | Some first =>
          match content first with
          | None => throw (Js.Error (typeErrorMessage pf "parts"))
          | Some c => ret (parts c)
          end
      end
  end.

(** The argument object of the call. *)
Definition request (imagePart : Part) (textPrompt : string)
    : GenerateContentParameters :=
  let textPart := mkPart None (Some textPrompt) in
  mkRequest model [imagePart; textPart] [IMAGE; TEXT].

(** The [try] block after the [await]: the scan and the final test. *)
Definition normalise (pf : Platform) (response : GenerateContentResponse)
    : Eff EditResult :=
  (guarded <- guardedParts pf response ;;
   let '(editedImage, responseText) :=
     match guarded with
     | Some ps => scanParts ps (None, None)
     | None => (None, None)
     end in
   if negb (Js.truthy editedImage) && negb (Js.truthy responseText)
   then throw (Js.Error invalidResponseMessage)
   else ret (mkEditResult editedImage responseText))%eff.

(** The body of the [try] block. *)
Definition attempt (pf : Platform) (ai : GoogleGenAI) (imagePart : Part)
    (textPrompt : string) : Eff EditResult :=
  (response <- generateContent pf ai (request imagePart textPrompt) ;;
   normalise pf response)%eff.

Definition logLabel : string := "Error calling Gemini API:".

(** The [catch] block. *)
Definition recover (error : Js.Thrown) : Eff EditResult :=
  (console_error logLabel error ;;;
   match error with
   | Js.Error message =>
       if Js.includes "permission" message
       then throw (Js.Error permissionMessage)
       else throw (Js.Error genericMessage)
   | Js.NotAnError _ => throw (Js.Error genericMessage)
   end)%eff.

Definition editImageWithPrompt (pf : Platform) (ai : GoogleGenAI)
    (imagePart : Part) (textPrompt : string) : Eff EditResult :=
  try_catch (attempt pf ai imagePart textPrompt) recover.

End GeminiService.

(** ** The platform's file reader *)

(** Radix-64 text of a byte sequence, as the platform's data URLs carry it
    (RFC 4648, with padding), and the standard decoder of that text. *)
Module Base64.

Definition alphabet : list ascii :=
  String.list_ascii_of_string
    "ABCDEFGHIJKLMNOPQRSTUVWXYZabcdefghijklmnopqrstuvwxyz0123456789+/".

Definition pad : ascii := "="%char.

Definition sextetChar (n : N) : ascii := nth (N.to_nat n) alphabet pad.

Fixpoint indexFrom (i : N) (c : ascii) (l : list ascii) : option N :=
  match l with
  | [] => None
  | x :: l' => if Ascii.eqb x c then Some i else indexFrom (N.succ i) c l'
  end.

Definition charSextet (c : ascii) : option N := indexFrom 0 c alphabet.

(** The sixty-four values a sextet takes. *)
Definition sextets : list N := map N.of_nat (seq 0 64).

(** The 24-bit group of three bytes. *)
Definition group (a b c : Byte.byte) : N :=
  (Byte.to_N a * 65536 + Byte.to_N b * 256 + Byte.to_N c)%N.

Function encode (bs : list Byte.byte) : list ascii :=
  match bs with
  | [] => []
  | [a] =>
      let n := group a Byte.x00 Byte.x00 in
      [sextetChar (n / 262144); sextetChar ((n / 4096) mod 64); pad; pad]
  | [a; b] =>
      let n := group a b Byte.x00 in
      [sextetChar (n / 262144); sextetChar ((n / 4096) mod 64);
       sextetChar ((n / 64) mod 64); pad]
  | a :: b :: c :: rest =>
      let n := group a b c in
      sextetChar (n / 262144) :: sextetChar ((n / 4096) mod 64) ::
      sextetChar ((n / 64) mod 64) :: sextetChar (n mod 64) :: encode rest
  end%N.

Fixpoint decode (cs : list ascii) : option (list Byte.byte) :=
  match cs with
  | [] => Some []
  | c0 :: c1 :: c2 :: c3 :: rest =>
      if Ascii.eqb c3 pad then
        match rest with
        | [] =>
            if Ascii.eqb c2 pad then
              s0 ← charSextet c0; s1 ← charSextet c1;
              a ← Byte.of_N ((s0 * 64 + s1) / 16);
              Some [a]
            else
              s0 ← charSextet c0; s1 ← charSextet c1; s2 ← charSextet c2;
              let n := (s0 * 4096 + s1 * 64 + s2) in
              a ← Byte.of_N (n / 1024); b ← Byte.of_N ((n / 4) mod 256);
              Some [a; b]
        | _ :: _ => None
        end
      else
        s0 ← charSextet c0; s1 ← charSextet c1; s2 ← charSextet c2;
        s3 ← charSextet c3;
        let n := (s0 * 262144 + s1 * 4096 + s2 * 64 + s3) in
        a ← Byte.of_N (n / 65536); b ← Byte.of_N ((n / 256) mod 256);
        c ← Byte.of_N (n mod 256);
        tail ← decode rest;
        Some (a :: b :: c :: tail)
  | _ => None
  end%N.

Definition encodeString (bs : list Byte.byte) : string :=
  String.string_of_list_ascii (encode bs).

Definition decodeString (s : string) : option (list Byte.byte) :=
  decode (String.list_ascii_of_string s).

End Base64.

(** A [File]: its declared media type and, when the platform can read it,
    its bytes. *)
Record File : Type := mkFile {
  file_type : string;
  file_bytes : option (list Byte.byte)
}.

(** A promise whose executor never rejects: it is resolved, or it stays
    pending for ever. *)
Inductive Promise (A : Type) : Type :=
| Resolved (a : A)
| Pending.
Arguments Resolved {A} a.
Arguments Pending {A}.

Module FileReader.

(** The media type a data URL names for a file of declared type [t]. *)
Definition urlMediaType (t : string) : string :=
  if String.eqb t "" then "application/octet-stream" else t.

(** [reader.result] at [loadend] after [readAsDataURL]: the data URL of
    the bytes, or [null] when the read failed. *)
Definition readAsDataURL (file : File) : option string :=
  match file_bytes file with
  | Some bs =>
      Some ("data:" +:+ urlMediaType (file_type file) +:+ ";base64," +:+
            Base64.encodeString bs)
  | None => None
  end.

End FileReader.

(** ** [utils/imageUtils.ts] *)

Module ImageUtils.

(** [onloadend] resolves the promise with
    [(reader.result as string).split(',')[1]]; when the result is [null]
    the callback throws before it resolves, and the promise stays
    pending. *)
Definition fileToGenerativePart (file : File) : Promise Part :=
  match FileReader.readAsDataURL file with
  | Some result =>
      let base64Data := Js.split ","%char result !! 1%nat in
      Resolved (mkPart (Some (mkBlob base64Data (Some (file_type file))))
                       None)
  | None => Pending
  end.

End ImageUtils.

(** ** Concrete platforms *)

(** V8's message for reading [property] of [undefined]. *)
Definition v8TypeError (property : string) : string :=
  "Cannot read properties of undefined (reading '" +:+ property +:+ "')".

Definition v8TypeError_plain (property : string)
    (H : In property ["content"; "parts"]) :
  Js.includes "permission" (v8TypeError property) = false.
Proof. destruct H as [<-|[<-|[]]]; reflexivity. Defined.

(** A platform on V8 whose remote call settles as [outcome] whatever the
    request. *)
Definition settling (outcome : Js.Thrown + GenerateContentResponse)
    : Platform :=
  mkPlatform (fun _ _ => outcome) v8TypeError v8TypeError_plain.

(** A response whose first candidate carries the parts [ps]. *)
Definition responseOf (ps : list Part) : GenerateContentResponse :=
  mkResponse (Some [mkCandidate (Some (mkContent (Some ps)))]).

Definition pngPart (payload : string) : Part :=
  mkPart (Some (mkBlob (Some payload) (Some "image/png"))) None.

Definition textPart (s : string) : Part := mkPart None (Some s).

Definition someClient : GoogleGenAI := mkClient (Some "k-123").

(** ** The vocabulary of the specification *)

(** A part is a binary part when it carries inline data, and a text part
    when it carries text and no inline data. *)
Definition isBinaryPart (p : Part) : bool :=
  match inlineData p with Some _ => true | None => false end.

Definition isTextPart (p : Part) : bool :=
  match inlineData p, text p with
  | None, Some _ => true
  | _, _ => false
  end.

Definition textContent (p : Part) : option string :=
  if isTextPart p then text p else None.

Definition nonEmptyTextContent (p : Part) : option string :=
  if isTextPart p && Js.truthy (text p) then text p else None.

Definition lastBinary (ps : list Part) : option Blob :=
  last (omap inlineData ps).

Definition lastText (ps : list Part) : option string :=
  last (omap textContent ps).

Definition lastNonEmptyText (ps : list Part) : option string :=
  last (omap nonEmptyTextContent ps).

(** The part sequence the loop of the adapter runs over, when it runs. *)
Definition scannedSequence (r : GenerateContentResponse)
    : option (list Part) :=
  cs ← candidates r; first ← cs !! 0%nat; c ← content first; parts c.

(** The underlying error is an [Error] whose message contains
    "permission". *)
Definition mentionsPermission (e : Js.Thrown) : bool :=
  match e with
  | Js.Error message => Js.includes "permission" message
  | Js.NotAnError _ => false
  end.

(** A response that ends in an empty text part, after an image and a
    description. *)
Definition trailingEmptyText : list Part :=
  [pngPart "WA=="; textPart "hello"; textPart ""].

Definition twoOfEach : list Part :=
  [pngPart "WA=="; textPart "first"; pngPart "WQ=="; textPart "second"].

Definition onlyEmptyTexts : list Part := [textPart ""; textPart ""].

Definition imageWithCaption : Part :=
  mkPart (Some (mkBlob (Some "WQ==") (Some "image/png"))) (Some "caption").

(** A file whose declared type holds a comma; the File API keeps any
    printable ASCII text as the type of a constructed [File]. *)
Definition commaFile : File := mkFile "image/x,y" (Some [Byte.x01]).

Definition pngFile : File :=
  mkFile "image/png" (Some [Byte.x89; Byte.x50; Byte.x4e; Byte.x47]).

(** Environments of the process: with an empty key, and with a key. *)
Definition emptyKeyEnv : gmap string string := {["API_KEY" := ""]}.

Definition keyedEnv : gmap string string :=
  {["API_KEY" := "k-123"; "NODE_ENV" := "production"]}.

Definition firstCandidate : Candidate :=
  mkCandidate (Some (mkContent (Some [pngPart "WA=="]))).

Definition otherCandidate : Candidate :=
  mkCandidate (Some (mkContent (Some [pngPart "WQ=="; textPart "other"]))).

(** ** [App.tsx]: the state of the component and its handlers *)

Module App.

(** The seven [useState] cells. *)
Record State : Type := mkState {
  originalImage : option File;
  originalImageUrl : option string;
  editedImageUrl : option string;
  prompt : string;
  isLoading : bool;
  error : option string;
  isDragging : bool
}.

Definition defaultPrompt : string :=
  "Turn this into a professional, high-quality photograph. Enhance lighting, color balance, and sharpness.".

Definition initial : State :=
  mkState None None None defaultPrompt false None false.

(** The setters: each replaces one cell of the current state. *)
Definition setOriginalImage (v : option File) (st : State) : State :=
  mkState v (originalImageUrl st) (editedImageUrl st) (prompt st)
    (isLoading st) (error st) (isDragging st).

Definition setOriginalImageUrl (v : option string) (st : State) : State :=
  mkState (originalImage st) v (editedImageUrl st) (prompt st)
    (isLoading st) (error st) (isDragging st).

Definition setEditedImageUrl (v : option string) (st : State) : State :=
  mkState (originalImage st) (originalImageUrl st) v (prompt st)
    (isLoading st) (error st) (isDragging st).

Definition setPrompt (v : string) (st : State) : State :=
  mkState (originalImage st) (originalImageUrl st) (editedImageUrl st) v
    (isLoading st) (error st) (isDragging st).

Definition setIsLoading (v : bool) (st : State) : State :=
  mkState (originalImage st) (originalImageUrl st) (editedImageUrl st)
    (prompt st) v (error st) (isDragging st).

Definition setError (v : option string) (st : State) : State :=
  mkState (originalImage st) (originalImageUrl st) (editedImageUrl st)
    (prompt st) (isLoading st) v (isDragging st).

Definition setIsDragging (v : bool) (st : State) : State :=
  mkState (originalImage st) (originalImageUrl st) (editedImageUrl st)
    (prompt st) (isLoading st) (error st) v.

Definition resetState (st : State) : State :=
  setIsLoading false
    (setError None
       (setEditedImageUrl None
          (setOriginalImageUrl None (setOriginalImage None st)))).

Definition invalidImageMessage : string :=
  "Please select a valid image file.".

(** [handleImageChange], up to the start of the read: the new state, and
    the file handed to [reader.readAsDataURL] when one is. *)
Definition handleImageChange (file : option File) (st : State)
    : State * option File :=
  match file with
  | Some f =>
      if Js.startsWith "image/" (file_type f)
      then (setOriginalImage (Some f) (resetState st), Some f)
      else (setError (Some invalidImageMessage) st, None)
  | None => (setError (Some invalidImageMessage) st, None)
  end.

(** The [onloadend] callback of that reader, run on the state of the
    moment. *)
Definition previewLoaded (f : File) (st : State) : State :=
  setOriginalImageUrl (FileReader.readAsDataURL f) st.

(** [handleFileSelect]: [e.target.files?.[0] || null]. *)
Definition handleFileSelect (files : list File) (st : State)
    : State * option File :=
  handleImageChange (files !! 0%nat) st.

(** [handleDrop]: [e.dataTransfer.files?.[0] || null], after the drag
    highlight is cleared. *)
Definition handleDrop (files : list File) (st : State)
    : State * option File :=
  handleImageChange (files !! 0%nat) (setIsDragging false st).

(** [handleDragEvents], by the [type] of the event. *)
Definition handleDragEvents (type : string) (st : State) : State :=
  if String.eqb type "dragenter" || String.eqb type "dragover"
  then setIsDragging true st
  else if String.eqb type "dragleave" then setIsDragging false st
  else st.

Definition missingInputMessage : string :=
  "Please select an image and enter a prompt.".

Definition noImageMessage : string :=
  "The AI did not return an image. Please try a different prompt.".

Definition unknownErrorMessage : string := "An unknown error occurred.".

(** [handleGenerate] up to its first [await]: the new state, and the
    image and prompt the closure goes on with when the inputs are there. *)
Definition generateStart (st : State) : State * option (File * string) :=
  match originalImage st with
  | Some f =>
      if negb (Js.truthy (Some (prompt st)))
      then (setError (Some missingInputMessage) st, None)
      else (setError None (setEditedImageUrl None (setIsLoading true st)),
            Some (f, prompt st))
  | None => (setError (Some missingInputMessage) st, None)
  end.

(** The two awaited calls: how they settle, or [None] when the encoder's
    promise stays pending. *)
Definition generateWork (pf : Platform) (ai : GoogleGenAI) (f : File)
    (p : string) (w : World) : option (Js.Thrown + EditResult) * World :=
  match ImageUtils.fileToGenerativePart f with
  | Resolved imagePart =>
      let '(outcome, w') :=
        GeminiService.editImageWithPrompt pf ai imagePart p w in
      (Some outcome, w')
  | Pending => (None, w)
  end.

(** [handleGenerate] after the awaited calls settled, run on the state of
    the moment: the rest of the [try], the [catch] and the [finally]. The
    console line of this [catch] has no label. *)
Definition generateFinish (outcome : Js.Thrown + EditResult) (st : State)
    (w : World) : State * World :=
  match outcome with
  | inr result =>
      if Js.truthy (image result)
      then (setIsLoading false (setEditedImageUrl (image result) st), w)
      else (setIsLoading false
              (setError (Some (match res_text result with
                               | Some s =>
                                   if Js.truthy (Some s) then s
                                   else noImageMessage
                               | None => noImageMessage
                               end)) st), w)
  | inl e =>
      (setIsLoading false
         (setError (Some (match e with
                          | Js.Error message => message
                          | Js.NotAnError _ => unknownErrorMessage
                          end)) st),
       withLog w "" e)
  end.

(** [handleGenerate] when no other event comes between its steps. *)
Definition handleGenerate (pf : Platform) (ai : GoogleGenAI) (st : State)
    (w : World) : State * World :=
  match generateStart st with
  | (st1, Some (f, p)) =>
      match generateWork pf ai f p w with
      | (Some outcome, w') => generateFinish outcome st1 w'
      | (None, w') => (st1, w')
      end
  | (st1, None) => (st1, w)
  end.

(** [disabled={isLoading || !originalImage}] of the Generate button. *)
Definition generateDisabled (st : State) : bool :=
  isLoading st || match originalImage st with Some _ => false | None => true end.

(** What the page shows: the error box under [error &&], the edited image
    under [editedImageUrl ?]. *)
Definition showsError (st : State) : bool := Js.truthy (error st).

Definition showsEdited (st : State) : bool := Js.truthy (editedImageUrl st).

Definition QUICK_PROMPTS : list string :=
  ["Professional Headshot"; "Cinematic Look"; "Vintage Film";
   "Improve Lighting"; "Vibrant Colors"; "Remove Background"].

(** The [switch] of [handleQuickPrompt]. *)
Definition fullPrompt (p : string) : string :=
  if String.eqb p "Professional Headshot" then
    "Convert this image into a professional headshot suitable for a corporate profile. Enhance lighting, sharpen features, and provide a clean, neutral background."
  else if String.eqb p "Cinematic Look" then
    "Apply a cinematic color grade to this image. Add dramatic lighting, enhance shadows and highlights, and give it a widescreen feel."
  else if String.eqb p "Vintage Film" then
    "Give this photo a vintage film look. Add grain, slightly fade the colors, and apply a color cast reminiscent of old film stock."
  else if String.eqb p "Improve Lighting" then
    "Improve the lighting in this photo. Balance the exposure, brighten up dark areas, and reduce harsh highlights for a more natural look."
  else if String.eqb p "Vibrant Colors" then
    "Make the colors in this photo more vibrant and saturated. Enhance the blues, greens, and reds to make the image pop without looking unnatural."
  else if String.eqb p "Remove Background" then
    "Carefully remove the background from this image, leaving only the main subject. Provide a transparent or neutral gray background."
  else p.

Definition handleQuickPrompt (p : string) (st : State) : State :=
  setPrompt (fullPrompt p) st.

End App.

(** ** More vocabulary: the parts the scan acts on *)

Definition isNonEmptyTextPart (p : Part) : bool :=
  isTextPart p && Js.truthy (text p).

Definition isUsablePart (p : Part) : bool :=
  isBinaryPart p || isNonEmptyTextPart p.

(** A part of another kind (a function call, a thought): neither field the
    adapter probes is set. *)
Definition otherKindPart : Part := mkPart None None.

Definition interleaved : list Part :=
  [textPart "first"; pngPart "WA=="; otherKindPart; textPart "";
   pngPart "WQ=="; textPart "second"; otherKindPart].

Definition grouped : list Part :=
  [pngPart "WA=="; pngPart "WQ=="; textPart "first"; textPart "";
   textPart "second"].

(** What can happen to the component: the user's actions, and the two
    callbacks that arrive later ([onloadend] of a preview read, the rest of
    [handleGenerate] once its awaited calls settled). *)
Inductive Event : Type :=
| FileSelected (files : list File)
| Dropped (files : list File)
| Dragged (type : string)
| PromptTyped (value : string)
| QuickPromptClicked (p : string)
| ImageCleared
| PreviewLoaded (f : File)
| GenerateClicked
| GenerateSettled (outcome : Js.Thrown + EditResult).

(** The state after an event. A click on the disabled Generate button
    reaches no handler. *)
Definition step (st : App.State) (e : Event) : App.State :=
  match e with
  | FileSelected files => fst (App.handleFileSelect files st)
  | Dropped files => fst (App.handleDrop files st)
  | Dragged type => App.handleDragEvents type st
  | PromptTyped value => App.setPrompt value st
  | QuickPromptClicked p => App.handleQuickPrompt p st
  | ImageCleared => App.resetState st
  | PreviewLoaded f => App.previewLoaded f st
  | GenerateClicked =>
      if App.generateDisabled st then st else fst (App.generateStart st)
  | GenerateSettled outcome => fst (App.generateFinish outcome st pristine)
  end.

Definition run (events : list Event) : App.State :=
  fold_left step events App.initial.

(** The stored image, when there is one, has a type that begins with
    "image/". *)
Definition imageTyped (st : App.State) : Prop :=
  match App.originalImage st with
  | Some f => Js.startsWith "image/" (file_type f) = true
  | None => True
  end.

Definition unreadableFile : File := mkFile "image/png" None.

Definition textFile : File := mkFile "text/plain" (Some [Byte.x68; Byte.x69]).

Definition readyState : App.State :=
  App.mkState (Some pngFile) (Some "data:image/png;base64,iVBORw==") None
    "Vintage Film" false None false.

Definition unreadableState : App.State :=
  App.mkState (Some unreadableFile) None None "Vintage Film" false None false.

Definition otherPng : File := mkFile "image/png" (Some [Byte.x01]).

(** ** Checks on concrete inputs *)

Example includes_permission :
  Js.includes "permission" "403: caller lacks permission to call" = true.
Proof. reflexivity. Qed.

Example includes_case_sensitive :
  Js.includes "permission" "Permission denied" = false.
Proof. reflexivity. Qed.

Example split_data_url :
  Js.split ","%char "data:image/png;base64,AQID" = ["data:image/png;base64"; "AQID"].
Proof. reflexivity. Qed.

Example base64_Man :
  Base64.encodeString [Byte.x4d; Byte.x61; Byte.x6e] = "TWFu".
Proof. reflexivity. Qed.

Example base64_Ma :
  Base64.encodeString [Byte.x4d; Byte.x61] = "TWE=".
Proof. reflexivity. Qed.

Example base64_M :
  Base64.encodeString [Byte.x4d] = "TQ==".
Proof. reflexivity. Qed.

Example base64_back :
  Base64.decodeString "TWFuTQ==" = Some [Byte.x4d; Byte.x61; Byte.x6e; Byte.x4d].
Proof. reflexivity. Qed.

Example encode_png_stub :
  ImageUtils.fileToGenerativePart
    (mkFile "image/png" (Some [Byte.x01; Byte.x02; Byte.x03]))
  = Resolved (mkPart (Some (mkBlob (Some "AQID") (Some "image/png"))) None).
Proof. reflexivity. Qed.

Example spec_scenario_image_only :
  fst (GeminiService.editImageWithPrompt
         (settling (inr (responseOf [pngPart "iVBORw0KGgo="])))
         someClient (pngPart "AQID") "Vintage Film" pristine)
  = inr (mkEditResult (Some "data:image/png;base64,iVBORw0KGgo=") None).
Proof. reflexivity. Qed.

Example spec_scenario_two_images :
  fst (GeminiService.editImageWithPrompt
         (settling (inr (responseOf [pngPart "WA=="; pngPart "WQ=="])))
         someClient (pngPart "AQID") "Vintage Film" pristine)
  = inr (mkEditResult (Some "data:image/png;base64,WQ==") None).
Proof. reflexivity. Qed.

Example spec_scenario_permission :
  fst (GeminiService.editImageWithPrompt
         (settling (inl (Js.Error "403 permission denied")))
         someClient (pngPart "AQID") "Vintage Film" pristine)
  = inl (Js.Error "API key is invalid or missing required permissions.").
Proof. reflexivity. Qed.

Example empty_candidates_is_generic :
  GeminiService.editImageWithPrompt
    (settling (inr (mkResponse (Some [])))) someClient (pngPart "AQID") "x"
    pristine
  = (inl (Js.Error GeminiService.genericMessage),
     withLog
       (withCall pristine someClient
          (GeminiService.request (pngPart "AQID") "x"))
       "Error calling Gemini API:"
       (Js.Error "Cannot read properties of undefined (reading 'content')")).
Proof. reflexivity. Qed.

(** ** The scan keeps the last part of each kind *)

Section Scan.

Import GeminiService.

Lemma scanParts_snoc (ps : list Part) (p : Part)
    (acc : option string * option string) :
  scanParts (ps ++ [p])%list acc = scanPart (scanParts ps acc) p.
Proof. unfold scanParts. rewrite fold_left_app. reflexivity. Qed.

Lemma last_omap_snoc {A B} (f : A -> option B) (l : list A) (x : A) :
  last (omap f (l ++ [x])%list) =
  match f x with Some y => Some y | None => last (omap f l) end.
Proof.
  rewrite omap_app. simpl. destruct (f x) as [y|].
  - apply last_snoc.
  - rewrite app_nil_r. reflexivity.
Qed.

Lemma scanParts_last (ps : list Part) :
  scanParts ps (None, None) = (dataUri <$> lastBinary ps, lastNonEmptyText ps).
Proof.
  induction ps as [|p ps IH] using rev_ind; [reflexivity|].
  rewrite scanParts_snoc, IH.
  unfold lastBinary, lastNonEmptyText. rewrite !last_omap_snoc.
  unfold scanPart, nonEmptyTextContent, isTextPart. simpl.
  destruct (inlineData p) as [blob|]; [reflexivity|].
  destruct (text p) as [s|]; simpl; [|reflexivity].
  destruct (negb (String.eqb s "")); reflexivity.
Qed.

End Scan.

(** ** How one invocation of the adapter runs *)

Section Run.

Import GeminiService.

Variables (pf : Platform) (ai : GoogleGenAI) (imagePart : Part)
  (textPrompt : string) (w : World).

(** What the [catch] block makes of the error it receives. *)
Lemma recover_run (e : Js.Thrown) (w' : World) :
  recover e w' =
  (inl (Js.Error (if mentionsPermission e then permissionMessage
                  else genericMessage)),
   withLog w' logLabel e).
Proof.
  unfold recover, bind, console_error, throw. simpl.
  destruct e as [message|shown]; simpl; [|reflexivity].
  destruct (Js.includes "permission" message); reflexivity.
Qed.

Lemma attempt_run :
  attempt pf ai imagePart textPrompt w =
  match settle pf ai (request imagePart textPrompt) with
  | inl e => (inl e, withCall w ai (request imagePart textPrompt))
  | inr r => normalise pf r (withCall w ai (request imagePart textPrompt))
  end.
Proof.
  unfold attempt, bind, generateContent.
  destruct (settle pf ai (request imagePart textPrompt)); reflexivity.
Qed.

Lemma edit_run :
  editImageWithPrompt pf ai imagePart textPrompt w =
  match attempt pf ai imagePart textPrompt w with
  | (inr result, w') => (inr result, w')
  | (inl e, w') =>
      (inl (Js.Error (if mentionsPermission e then permissionMessage
                      else genericMessage)),
       withLog w' logLabel e)
  end.
Proof.
  unfold editImageWithPrompt, try_catch.
  destruct (attempt pf ai imagePart textPrompt w) as [[e|result] w'];
    [apply recover_run | reflexivity].
Qed.

(** The scan leaves either nothing or a truthy string in each variable. *)
Lemma lastNonEmptyText_truthy (ps : list Part) (s : string) :
  lastNonEmptyText ps = Some s -> Js.truthy (Some s) = true.
Proof.
  intros H. apply last_Some_elem_of, list_elem_of_omap in H.
  destruct H as (p & _ & Hp). unfold nonEmptyTextContent in Hp.
  destruct (isTextPart p && Js.truthy (text p)) eqn:E; [|discriminate].
  apply andb_true_iff in E. rewrite Hp in E. apply E.
Qed.

Lemma normalise_scanned (r : GenerateContentResponse) (ps : list Part)
    (w' : World) :
  scannedSequence r = Some ps ->
  normalise pf r w' =
  match lastBinary ps, lastNonEmptyText ps with
  | None, None => (inl (Js.Error invalidResponseMessage), w')
  | b, t => (inr (mkEditResult (dataUri <$> b) t), w')
  end.
Proof.
  unfold scannedSequence, normalise, guardedParts, bind.
  destruct (candidates r) as [cs|]; [|discriminate]. simpl.
  destruct (cs !! 0%nat) as [first|]; [|discriminate]. simpl.
  destruct (content first) as [c|]; [|discriminate]. simpl.
  intros ->. unfold ret. rewrite scanParts_last.
  destruct (lastBinary ps) as [b|]; simpl.
  - destruct (lastNonEmptyText ps); reflexivity.
  - destruct (lastNonEmptyText ps) as [s|] eqn:E; [|reflexivity].
    apply lastNonEmptyText_truthy in E. rewrite E. reflexivity.
Qed.

(** A response without a candidates list, or whose first candidate has a
    content without a parts list: the loop is skipped. *)
Lemma normalise_skipped (r : GenerateContentResponse) (w' : World) :
  candidates r = None \/
  (exists first rest c,
     candidates r = Some (first :: rest) /\ content first = Some c /\
     parts c = None) ->
  normalise pf r w' = (inl (Js.Error invalidResponseMessage), w').
Proof.
  unfold normalise, guardedParts, bind.
  intros [-> | (first & rest & c & -> & Hc & Hp)]; [reflexivity|].
  simpl. rewrite Hc. simpl. rewrite Hp. reflexivity.
Qed.

(** The guard itself throws: the candidates list is empty, or its first
    candidate has no content. *)
Lemma normalise_type_error (r : GenerateContentResponse) (w' : World) :
  candidates r = Some [] \/
  (exists first rest,
     candidates r = Some (first :: rest) /\ content first = None) ->
  exists property,
    In property ["content"; "parts"] /\
    normalise pf r w' = (inl (Js.Error (typeErrorMessage pf property)), w').
Proof.
  unfold normalise, guardedParts, bind.
  intros [-> | (first & rest & -> & Hc)].
  - exists "content". split; [left; reflexivity | reflexivity].
  - exists "parts". split; [right; left; reflexivity |].
    simpl. rewrite Hc. reflexivity.
Qed.

End Run.

(** ** The outcome of an invocation, by the shape of the response *)

Section Outcome.

Import GeminiService.

Variables (pf : Platform) (ai : GoogleGenAI) (imagePart : Part)
  (textPrompt : string) (w : World).

Lemma outcome_rejected (e : Js.Thrown) :
  settle pf ai (request imagePart textPrompt) = inl e ->
  fst (attempt pf ai imagePart textPrompt w) = inl e.
Proof. intros H. rewrite attempt_run, H. reflexivity. Qed.

Lemma outcome_thrown (e : Js.Thrown) :
  fst (attempt pf ai imagePart textPrompt w) = inl e ->
  fst (editImageWithPrompt pf ai imagePart textPrompt w) =
  inl (Js.Error (if mentionsPermission e then permissionMessage
                 else genericMessage)).
Proof.
  intros H. rewrite edit_run.
  destruct (attempt pf ai imagePart textPrompt w) as [[e'|result] w'];
    simpl in H; [|discriminate].
  injection H as ->. reflexivity.
Qed.

Lemma outcome_scanned (r : GenerateContentResponse) (ps : list Part) :
  settle pf ai (request imagePart textPrompt) = inr r ->
  scannedSequence r = Some ps ->
  fst (editImageWithPrompt pf ai imagePart textPrompt w) =
  match lastBinary ps, lastNonEmptyText ps with
  | None, None => inl (Js.Error genericMessage)
  | b, t => inr (mkEditResult (dataUri <$> b) t)
  end.
Proof.
  intros Hr Hps.
  rewrite edit_run, attempt_run, Hr, (normalise_scanned _ _ _ _ Hps).
  destruct (lastBinary ps), (lastNonEmptyText ps); reflexivity.
Qed.

Lemma outcome_skipped (r : GenerateContentResponse) :
  settle pf ai (request imagePart textPrompt) = inr r ->
  candidates r = None \/
  (exists first rest c,
     candidates r = Some (first :: rest) /\ content first = Some c /\
     parts c = None) ->
  fst (editImageWithPrompt pf ai imagePart textPrompt w) =
  inl (Js.Error genericMessage).
Proof.
  intros Hr Hskip.
  rewrite edit_run, attempt_run, Hr, (normalise_skipped _ _ _ Hskip).
  reflexivity.
Qed.

Lemma outcome_type_error (r : GenerateContentResponse) :
  settle pf ai (request imagePart textPrompt) = inr r ->
  candidates r = Some [] \/
  (exists first rest,
     candidates r = Some (first :: rest) /\ content first = None) ->
  fst (editImageWithPrompt pf ai imagePart textPrompt w) =
  inl (Js.Error genericMessage).
Proof.
  intros Hr Hbad.
  destruct (normalise_type_error pf r
              (withCall w ai (request imagePart textPrompt)) Hbad)
    as (property & Hin & Hn).
  rewrite edit_run, attempt_run, Hr, Hn. simpl.
  rewrite (typeError_plain pf property Hin). reflexivity.
Qed.

(** Every response falls under one of the three shapes. *)
Lemma response_shapes (r : GenerateContentResponse) :
  (exists ps, scannedSequence r = Some ps) \/
  (scannedSequence r = None /\
   (candidates r = None \/
    (exists first rest c,
       candidates r = Some (first :: rest) /\ content first = Some c /\
       parts c = None))) \/
  (scannedSequence r = None /\
   (candidates r = Some [] \/
    (exists first rest,
       candidates r = Some (first :: rest) /\ content first = None))).
Proof.
  unfold scannedSequence.
  destruct (candidates r) as [[|first rest]|]; simpl.
  - right; right. split; [reflexivity | left; reflexivity].
  - destruct (content first) as [c|] eqn:Hc; simpl.
    + destruct (parts c) as [ps|] eqn:Hp.
      * left. exists ps. reflexivity.
      * right; left. split; [reflexivity|]. right. exists first, rest, c. auto.
    + right; right. split; [reflexivity|]. right. exists first, rest. auto.
  - right; left. split; [reflexivity | left; reflexivity].
Qed.

End Outcome.

(** ** Parts of one kind only *)

Lemma lastBinary_none (ps : list Part) :
  Forall (fun p => isBinaryPart p = false) ps -> lastBinary ps = None.
Proof.
  intros H. unfold lastBinary.
  replace (omap inlineData ps) with (@nil Blob); [reflexivity|].
  induction H as [|p ps Hp _ IH]; [reflexivity|].
  simpl. unfold isBinaryPart in Hp.
  destruct (inlineData p); [discriminate | exact IH].
Qed.

Lemma lastNonEmptyText_none (ps : list Part) :
  Forall (fun p => isTextPart p = false \/ text p = Some "") ps ->
  lastNonEmptyText ps = None.
Proof.
  intros H. unfold lastNonEmptyText.
  replace (omap nonEmptyTextContent ps) with (@nil string); [reflexivity|].
  induction H as [|p ps Hp _ IH]; [reflexivity|].
  simpl. unfold nonEmptyTextContent.
  destruct Hp as [-> | ->]; simpl; [exact IH|].
  rewrite andb_false_r. exact IH.
Qed.

Lemma lastNonEmptyText_some (ps : list Part) :
  Exists (fun p => isTextPart p = true /\ Js.truthy (text p) = true) ps ->
  exists s, lastNonEmptyText ps = Some s.
Proof.
  intros H. apply Exists_exists in H. destruct H as (p & Hin & Ht & Hs).
  assert (Hp : nonEmptyTextContent p = text p).
  { unfold nonEmptyTextContent. rewrite Ht, Hs. reflexivity. }
  destruct (text p) as [s|] eqn:E; [|discriminate].
  assert (Hmem : s ∈ omap nonEmptyTextContent ps).
  { apply list_elem_of_omap. exists p. split; [exact Hin | exact Hp]. }
  unfold lastNonEmptyText.
  destruct (last (omap nonEmptyTextContent ps)) as [s'|] eqn:El.
  - exists s'. reflexivity.
  - apply last_None in El. rewrite El in Hmem. inversion Hmem.
Qed.

(** ** The claims about the adapter *)

(** C1, as the specification words it, fails on a response that ends in an
    empty text part: the adapter returns the earlier description, whereas
    the content of the last text part is the empty string. *)
Lemma last_text_part_counterexample :
  fst (GeminiService.editImageWithPrompt
         (settling (inr (responseOf trailingEmptyText)))
         someClient (pngPart "AQID") "Vintage Film" pristine)
  = inr (mkEditResult (Some "data:image/png;base64,WA==") (Some "hello"))
  /\ lastText trailingEmptyText = Some ""
  /\ fst (GeminiService.editImageWithPrompt
            (settling (inr (responseOf trailingEmptyText)))
            someClient (pngPart "AQID") "Vintage Film" pristine)
     <> inr (mkEditResult
               (GeminiService.dataUri <$> lastBinary trailingEmptyText)
               (lastText trailingEmptyText)).
Proof. repeat split. discriminate. Qed.

(** C1 (amended): for every response whose part sequence the adapter scans
    and that holds a binary part or a non-empty text part, the adapter
    returns an EditResult whose image is the data URI
    [data:<mediaType>;base64,<payload>] of the last binary part of the whole
    sequence (null when there is none) and whose text is the content of the
    last text part that is not the empty string (null when there is none):
    the last write wins, and empty text parts are skipped. *)
Theorem adapter_keeps_last_parts (pf : Platform) (ai : GoogleGenAI)
    (imagePart : Part) (textPrompt : string) (w : World)
    (r : GenerateContentResponse) (ps : list Part) :
  settle pf ai (GeminiService.request imagePart textPrompt) = inr r ->
  scannedSequence r = Some ps ->
  lastBinary ps <> None \/ lastNonEmptyText ps <> None ->
  fst (GeminiService.editImageWithPrompt pf ai imagePart textPrompt w)
  = inr (mkEditResult (GeminiService.dataUri <$> lastBinary ps)
                      (lastNonEmptyText ps))
  /\ (forall payload mediaType,
        lastBinary ps = Some (mkBlob (Some payload) (Some mediaType)) ->
        GeminiService.dataUri <$> lastBinary ps
        = Some ("data:" +:+ mediaType +:+ ";base64," +:+ payload)).
Proof.
  intros Hr Hps Hsome. split.
  - rewrite (outcome_scanned pf ai imagePart textPrompt w r ps Hr Hps).
    destruct (lastBinary ps), (lastNonEmptyText ps); try reflexivity.
    destruct Hsome as [H|H]; contradiction H; reflexivity.
  - intros payload mediaType ->. reflexivity.
Qed.

Lemma adapter_keeps_last_parts_witness :
  fst (GeminiService.editImageWithPrompt
         (settling (inr (responseOf twoOfEach)))
         someClient (pngPart "AQID") "Vintage Film" pristine)
  = inr (mkEditResult (Some "data:image/png;base64,WQ==") (Some "second")).
Proof.
  refine (proj1 (adapter_keeps_last_parts
                   (settling (inr (responseOf twoOfEach))) someClient
                   (pngPart "AQID") "Vintage Film" pristine
                   (responseOf twoOfEach) twoOfEach eq_refl eq_refl _)).
  left. discriminate.
Defined.

(** C2: a response with no binary part and no text part makes the adapter
    fail with the generic message of a protocol error; and whatever the
    response, an EditResult with neither image nor text is not returned. *)
Theorem empty_response_is_protocol_error (pf : Platform) (ai : GoogleGenAI)
    (imagePart : Part) (textPrompt : string) (w : World)
    (r : GenerateContentResponse) :
  settle pf ai (GeminiService.request imagePart textPrompt) = inr r ->
  (forall ps, scannedSequence r = Some ps ->
     Forall (fun p => isBinaryPart p = false /\ isTextPart p = false) ps) ->
  fst (GeminiService.editImageWithPrompt pf ai imagePart textPrompt w)
  = inl (Js.Error GeminiService.genericMessage)
  /\ (forall pf' ai' imagePart' textPrompt' w' result,
        fst (GeminiService.editImageWithPrompt pf' ai' imagePart'
               textPrompt' w') = inr result ->
        Js.truthy (image result) = true \/
        Js.truthy (res_text result) = true).
Proof.
  intros Hr Hnone. split.
  - destruct (response_shapes r) as [[ps Hps] | [[_ H] | [_ H]]].
    + rewrite (outcome_scanned pf ai imagePart textPrompt w r ps Hr Hps).
      specialize (Hnone ps Hps).
      rewrite lastBinary_none, lastNonEmptyText_none; [reflexivity | |].
      * eapply Forall_impl; [exact Hnone|]. intros p [_ Hp]. left. exact Hp.
      * eapply Forall_impl; [exact Hnone|]. intros p [Hp _]. exact Hp.
    + apply (outcome_skipped pf ai imagePart textPrompt w r Hr H).
    + apply (outcome_type_error pf ai imagePart textPrompt w r Hr H).
  - clear. intros pf ai imagePart textPrompt w result.
    rewrite edit_run, attempt_run.
    destruct (settle pf ai (GeminiService.request imagePart textPrompt))
      as [e|r]; [discriminate|].
    unfold GeminiService.normalise, bind.
    destruct (GeminiService.guardedParts pf r _) as [[e|guarded] w0];
      [discriminate|].
    destruct (match guarded with
              | Some ps => GeminiService.scanParts ps (None, None)
              | None => (None, None)
              end) as [editedImage responseText].
    destruct (Js.truthy editedImage) eqn:Ei; simpl.
    + intros [= <-]. left. exact Ei.
    + destruct (Js.truthy responseText) eqn:Et; simpl; [|discriminate].
      intros [= <-]. right. exact Et.
Qed.

Lemma empty_response_is_protocol_error_witness :
  fst (GeminiService.editImageWithPrompt
         (settling (inr (responseOf [mkPart None None])))
         someClient (pngPart "AQID") "Vintage Film" pristine)
  = inl (Js.Error
           "Failed to process image with the AI model. Please try again later.").
Proof.
  refine (proj1 (empty_response_is_protocol_error
                   (settling (inr (responseOf [mkPart None None])))
                   someClient (pngPart "AQID") "Vintage Film" pristine
                   (responseOf [mkPart None None]) eq_refl _)).
  intros ps [= <-]. repeat constructor.
Defined.

(** C3: whatever makes the [try] block fail (the rejected remote call, the
    protocol violation, a malformed response), an [Error] whose message
    contains "permission" is raised as the authorisation message, every
    other failure as the one generic message; the two messages differ, and
    both are fixed texts, so the text of the underlying error does not reach
    the caller. *)
Theorem failures_are_flattened (pf : Platform) (ai : GoogleGenAI)
    (imagePart : Part) (textPrompt : string) (w : World) (e : Js.Thrown) :
  settle pf ai (GeminiService.request imagePart textPrompt) = inl e \/
  fst (GeminiService.attempt pf ai imagePart textPrompt w) = inl e ->
  (mentionsPermission e = true ->
   fst (GeminiService.editImageWithPrompt pf ai imagePart textPrompt w)
   = inl (Js.Error "API key is invalid or missing required permissions."))
  /\ (mentionsPermission e = false ->
      fst (GeminiService.editImageWithPrompt pf ai imagePart textPrompt w)
      = inl (Js.Error GeminiService.genericMessage))
  /\ GeminiService.genericMessage
     <> "API key is invalid or missing required permissions."
  /\ mentionsPermission (Js.Error GeminiService.invalidResponseMessage)
     = false.
Proof.
  intros H.
  assert (Ht : fst (GeminiService.attempt pf ai imagePart textPrompt w)
               = inl e).
  { destruct H as [H|H]; [apply outcome_rejected; exact H | exact H]. }
  pose proof (outcome_thrown pf ai imagePart textPrompt w e Ht) as Ho.
  repeat split.
  - intros Hm. rewrite Ho, Hm. reflexivity.
  - intros Hm. rewrite Ho, Hm. reflexivity.
  - discriminate.
Qed.

Lemma failures_are_flattened_witness :
  fst (GeminiService.editImageWithPrompt
         (settling (inl (Js.Error "403: caller lacks permission")))
         someClient (pngPart "AQID") "Vintage Film" pristine)
  = inl (Js.Error "API key is invalid or missing required permissions.").
Proof.
  exact (proj1 (failures_are_flattened
                  (settling (inl (Js.Error "403: caller lacks permission")))
                  someClient (pngPart "AQID") "Vintage Film" pristine
                  (Js.Error "403: caller lacks permission")
                  (or_introl eq_refl))
               eq_refl).
Defined.

(** C4: a response with a non-empty text part and no binary part makes the
    adapter succeed, with no image and the collected text. *)
Theorem text_only_response_succeeds (pf : Platform) (ai : GoogleGenAI)
    (imagePart : Part) (textPrompt : string) (w : World)
    (r : GenerateContentResponse) (ps : list Part) :
  settle pf ai (GeminiService.request imagePart textPrompt) = inr r ->
  scannedSequence r = Some ps ->
  Forall (fun p => isBinaryPart p = false) ps ->
  Exists (fun p => isTextPart p = true /\ Js.truthy (text p) = true) ps ->
  exists s,
    lastNonEmptyText ps = Some s /\ s <> "" /\
    fst (GeminiService.editImageWithPrompt pf ai imagePart textPrompt w)
    = inr (mkEditResult None (Some s)).
Proof.
  intros Hr Hps Hnobin Htext.
  destruct (lastNonEmptyText_some ps Htext) as [s Hs].
  exists s. split; [exact Hs|]. split.
  - apply lastNonEmptyText_truthy in Hs. intros ->. discriminate.
  - rewrite (outcome_scanned pf ai imagePart textPrompt w r ps Hr Hps).
    rewrite (lastBinary_none ps Hnobin), Hs. reflexivity.
Qed.

Lemma text_only_response_succeeds_witness :
  exists s,
    lastNonEmptyText [textPart "I cannot edit this image."] = Some s /\
    s <> "" /\
    fst (GeminiService.editImageWithPrompt
           (settling (inr (responseOf [textPart "I cannot edit this image."])))
           someClient (pngPart "AQID") "Vintage Film" pristine)
    = inr (mkEditResult None (Some s)).
Proof.
  apply (text_only_response_succeeds
           (settling (inr (responseOf [textPart "I cannot edit this image."])))
           someClient (pngPart "AQID") "Vintage Film" pristine
           (responseOf [textPart "I cannot edit this image."])
           [textPart "I cannot edit this image."] eq_refl eq_refl).
  - repeat constructor.
  - left. split; reflexivity.
Defined.

Lemma normalise_world (pf : Platform) (r : GenerateContentResponse)
    (w : World) :
  snd (GeminiService.normalise pf r w) = w.
Proof.
  unfold GeminiService.normalise, GeminiService.guardedParts, bind, ret, throw.
  destruct (candidates r) as [[|first rest]|]; simpl; try reflexivity.
  - destruct (content first) as [c|]; simpl; [|reflexivity].
    destruct (match parts c with
              | Some ps => GeminiService.scanParts ps (None, None)
              | None => (None, None)
              end) as [i t].
    destruct (negb (Js.truthy i) && negb (Js.truthy t)); reflexivity.
Qed.

(** C5: every invocation issues exactly one remote call, on the module's
    client, with the fixed model identifier, the two content parts
    [image part, text part] in that order and both response modalities. *)
Theorem one_call_with_both_modalities (pf : Platform) (ai : GoogleGenAI)
    (imagePart : Part) (textPrompt : string) (w : World) :
  issued (snd (GeminiService.editImageWithPrompt pf ai imagePart textPrompt w))
  = (issued w ++
     [(ai, mkRequest "gemini-2.5-flash-image-preview"
             [imagePart; mkPart None (Some textPrompt)] [IMAGE; TEXT])])%list.
Proof.
  rewrite edit_run, attempt_run.
  destruct (settle pf ai (GeminiService.request imagePart textPrompt))
    as [e|r]; [reflexivity|].
  pose proof (normalise_world pf r
                (withCall w ai (GeminiService.request imagePart textPrompt)))
    as Hw.
  destruct (GeminiService.normalise pf r _) as [[e|result] w'];
    simpl in Hw; subst w'; reflexivity.
Qed.

Lemma outcome_by_first (pf pf' : Platform) (ai : GoogleGenAI)
    (imagePart : Part) (textPrompt : string) (w : World)
    (first : Candidate) (rest rest' : list Candidate) :
  settle pf ai (GeminiService.request imagePart textPrompt)
  = inr (mkResponse (Some (first :: rest))) ->
  settle pf' ai (GeminiService.request imagePart textPrompt)
  = inr (mkResponse (Some (first :: rest'))) ->
  fst (GeminiService.editImageWithPrompt pf ai imagePart textPrompt w)
  = fst (GeminiService.editImageWithPrompt pf' ai imagePart textPrompt w).
Proof.
  intros Hr Hr'.
  destruct (content first) as [c|] eqn:Hc.
  - destruct (parts c) as [ps|] eqn:Hp.
    + rewrite (outcome_scanned pf ai imagePart textPrompt w _ ps Hr),
        (outcome_scanned pf' ai imagePart textPrompt w _ ps Hr');
        [reflexivity | |]; unfold scannedSequence; simpl; rewrite Hc; exact Hp.
    + rewrite (outcome_skipped pf ai imagePart textPrompt w _ Hr),
        (outcome_skipped pf' ai imagePart textPrompt w _ Hr');
        [reflexivity | |]; right; eexists first, _, c; simpl; auto.
  - rewrite (outcome_type_error pf ai imagePart textPrompt w _ Hr),
      (outcome_type_error pf' ai imagePart textPrompt w _ Hr');
      [reflexivity | |]; right; eexists first, _; simpl; auto.
Qed.

(** When there is no sequence to scan: the candidates list is absent or
    empty, or the first candidate has no content, or its content has no
    parts list. *)
Lemma no_sequence_cases (r : GenerateContentResponse) :
  scannedSequence r = None <->
  candidates r = None \/ candidates r = Some [] \/
  (exists first rest,
     candidates r = Some (first :: rest) /\
     (content first = None \/
      exists c, content first = Some c /\ parts c = None)).
Proof.
  unfold scannedSequence. split.
  - destruct (candidates r) as [[|first rest]|]; simpl; auto.
    intros H. right; right. exists first, rest. split; [reflexivity|].
    destruct (content first) as [c|]; simpl in H; [|left; reflexivity].
    right. exists c. auto.
  - intros [-> | [-> | (first & rest & -> & [Hc | (c & Hc & Hp)])]];
      simpl; try reflexivity; rewrite Hc; simpl; auto.
Qed.

Lemma outcome_unscanned (pf : Platform) (ai : GoogleGenAI)
    (imagePart : Part) (textPrompt : string) (w : World)
    (r : GenerateContentResponse) :
  settle pf ai (GeminiService.request imagePart textPrompt) = inr r ->
  scannedSequence r = None ->
  fst (GeminiService.editImageWithPrompt pf ai imagePart textPrompt w)
  = inl (Js.Error GeminiService.genericMessage).
Proof.
  intros Hr Hnone.
  destruct (response_shapes r) as [[ps Hps] | [[_ H] | [_ H]]].
  - rewrite Hps in Hnone. discriminate.
  - apply (outcome_skipped pf ai imagePart textPrompt w r Hr H).
  - apply (outcome_type_error pf ai imagePart textPrompt w r Hr H).
Qed.

(** C8: only the first candidate counts. Two responses with the same first
    candidate give the same outcome, whatever candidates follow; and when
    the candidates list is absent, or the first candidate carries no parts
    list (its content has none, or it has no content), the adapter fails
    with the generic message, which is its outcome on an empty part
    sequence. *)
Theorem only_first_candidate_counts (pf pf' : Platform) (ai : GoogleGenAI)
    (imagePart : Part) (textPrompt : string) (w : World)
    (r r' : GenerateContentResponse) :
  settle pf ai (GeminiService.request imagePart textPrompt) = inr r ->
  settle pf' ai (GeminiService.request imagePart textPrompt) = inr r' ->
  (forall first rest rest',
     candidates r = Some (first :: rest) ->
     candidates r' = Some (first :: rest') ->
     fst (GeminiService.editImageWithPrompt pf ai imagePart textPrompt w)
     = fst (GeminiService.editImageWithPrompt pf' ai imagePart textPrompt w))
  /\ (candidates r = None \/
      (exists first rest,
         candidates r = Some (first :: rest) /\
         (content first = None \/
          exists c, content first = Some c /\ parts c = None)) ->
      fst (GeminiService.editImageWithPrompt pf ai imagePart textPrompt w)
      = inl (Js.Error GeminiService.genericMessage)
      /\ (scannedSequence r' = Some [] ->
          fst (GeminiService.editImageWithPrompt pf ai imagePart textPrompt w)
          = fst (GeminiService.editImageWithPrompt pf' ai imagePart
                   textPrompt w))).
Proof.
  intros Hr Hr'. split.
  - intros first rest rest' Hc Hc'.
    destruct r as [cs], r' as [cs']. simpl in Hc, Hc'. subst cs cs'.
    exact (outcome_by_first pf pf' ai imagePart textPrompt w first rest rest'
             Hr Hr').
  - intros Hskip.
    assert (Hnone : scannedSequence r = None).
    { apply no_sequence_cases. destruct Hskip as [H|H]; auto. }
    pose proof (outcome_unscanned pf ai imagePart textPrompt w r Hr Hnone)
      as Ho.
    split; [exact Ho|].
    intros Hempty. rewrite Ho.
    rewrite (outcome_scanned pf' ai imagePart textPrompt w r' [] Hr' Hempty).
    reflexivity.
Qed.

Lemma only_first_candidate_counts_witness :
  fst (GeminiService.editImageWithPrompt
         (settling (inr (mkResponse (Some [firstCandidate]))))
         someClient (pngPart "AQID") "Vintage Film" pristine)
  = fst (GeminiService.editImageWithPrompt
           (settling (inr (mkResponse (Some [firstCandidate; otherCandidate]))))
           someClient (pngPart "AQID") "Vintage Film" pristine)
  /\ fst (GeminiService.editImageWithPrompt
            (settling (inr (mkResponse None)))
            someClient (pngPart "AQID") "Vintage Film" pristine)
     = inl (Js.Error
              "Failed to process image with the AI model. Please try again later.").
Proof.
  split.
  - exact (proj1 (only_first_candidate_counts
                    (settling (inr (mkResponse (Some [firstCandidate]))))
                    (settling
                       (inr (mkResponse
                               (Some [firstCandidate; otherCandidate]))))
                    someClient (pngPart "AQID") "Vintage Film" pristine
                    _ _ eq_refl eq_refl)
                 _ _ _ eq_refl eq_refl).
  - exact (proj1 (proj2 (only_first_candidate_counts
                           (settling (inr (mkResponse None)))
                           (settling (inr (responseOf [])))
                           someClient (pngPart "AQID") "Vintage Film" pristine
                           _ _ eq_refl eq_refl)
                        (or_introl eq_refl))).
Defined.

(** C9: a part with both inline data and text is scanned as a binary part
    only. It sets the image and leaves the text variable as it was, so the
    outcome is the one of the same response with the text of that part
    removed. *)
Theorem binary_takes_precedence (pf pf' : Platform) (ai : GoogleGenAI)
    (imagePart : Part) (textPrompt : string) (w : World)
    (r r' : GenerateContentResponse) (before after : list Part)
    (blob : Blob) (caption : string) :
  settle pf ai (GeminiService.request imagePart textPrompt) = inr r ->
  settle pf' ai (GeminiService.request imagePart textPrompt) = inr r' ->
  scannedSequence r
  = Some (before ++ mkPart (Some blob) (Some caption) :: after)%list ->
  scannedSequence r'
  = Some (before ++ mkPart (Some blob) None :: after)%list ->
  fst (GeminiService.editImageWithPrompt pf ai imagePart textPrompt w)
  = fst (GeminiService.editImageWithPrompt pf' ai imagePart textPrompt w)
  /\ (forall acc,
        GeminiService.scanPart acc (mkPart (Some blob) (Some caption))
        = (Some (GeminiService.dataUri blob), snd acc)).
Proof.
  intros Hr Hr' Hps Hps'. split; [|reflexivity].
  rewrite (outcome_scanned pf ai imagePart textPrompt w r _ Hr Hps),
    (outcome_scanned pf' ai imagePart textPrompt w r' _ Hr' Hps').
  unfold lastBinary, lastNonEmptyText. rewrite !omap_app. reflexivity.
Qed.

Lemma binary_takes_precedence_witness :
  fst (GeminiService.editImageWithPrompt
         (settling (inr (responseOf [textPart "kept"; imageWithCaption])))
         someClient (pngPart "AQID") "Vintage Film" pristine)
  = fst (GeminiService.editImageWithPrompt
           (settling (inr (responseOf [textPart "kept"; pngPart "WQ=="])))
           someClient (pngPart "AQID") "Vintage Film" pristine).
Proof.
  exact (proj1 (binary_takes_precedence
                  (settling
                     (inr (responseOf [textPart "kept"; imageWithCaption])))
                  (settling
                     (inr (responseOf [textPart "kept"; pngPart "WQ=="])))
                  someClient (pngPart "AQID") "Vintage Film" pristine
                  _ _ [textPart "kept"] []
                  (mkBlob (Some "WQ==") (Some "image/png")) "caption"
                  eq_refl eq_refl eq_refl eq_refl)).
Defined.

(** C10: an empty text part is skipped by the scan, as if it were not
    there; a response made of empty text parts only makes the adapter fail
    with the generic message of a protocol error, and it does not succeed
    with an empty text. *)
Theorem empty_text_is_ignored (pf : Platform) (ai : GoogleGenAI)
    (imagePart : Part) (textPrompt : string) (w : World)
    (r : GenerateContentResponse) (ps : list Part) :
  settle pf ai (GeminiService.request imagePart textPrompt) = inr r ->
  scannedSequence r = Some ps ->
  Forall (fun p => inlineData p = None /\ text p = Some "") ps ->
  fst (GeminiService.editImageWithPrompt pf ai imagePart textPrompt w)
  = inl (Js.Error GeminiService.genericMessage)
  /\ fst (GeminiService.attempt pf ai imagePart textPrompt w)
     = inl (Js.Error GeminiService.invalidResponseMessage)
  /\ (forall acc, GeminiService.scanPart acc (mkPart None (Some "")) = acc).
Proof.
  intros Hr Hps Hall.
  assert (Hb : lastBinary ps = None).
  { apply lastBinary_none. eapply Forall_impl; [exact Hall|].
    intros p [Hp _]. unfold isBinaryPart. rewrite Hp. reflexivity. }
  assert (Ht : lastNonEmptyText ps = None).
  { apply lastNonEmptyText_none. eapply Forall_impl; [exact Hall|].
    intros p [_ Hp]. right. exact Hp. }
  repeat split.
  - rewrite (outcome_scanned pf ai imagePart textPrompt w r ps Hr Hps), Hb, Ht.
    reflexivity.
  - rewrite attempt_run, Hr, (normalise_scanned pf r ps _ Hps), Hb, Ht.
    reflexivity.
Qed.

Lemma empty_text_is_ignored_witness :
  fst (GeminiService.editImageWithPrompt
         (settling (inr (responseOf onlyEmptyTexts)))
         someClient (pngPart "AQID") "Vintage Film" pristine)
  = inl (Js.Error
           "Failed to process image with the AI model. Please try again later.").
Proof.
  refine (proj1 (empty_text_is_ignored
                   (settling (inr (responseOf onlyEmptyTexts)))
                   someClient (pngPart "AQID") "Vintage Film" pristine
                   (responseOf onlyEmptyTexts) onlyEmptyTexts
                   eq_refl eq_refl _)).
  repeat constructor.
Defined.

(** ** Radix-64 text decodes to the bytes it encodes *)

Section Base64Facts.

Import Base64.

Local Open Scope N_scope.

Lemma all_sextets (f : N -> bool) :
  forallb f sextets = true -> forall n, n < 64 -> f n = true.
Proof.
  intros H n Hn. rewrite forallb_forall in H. apply H.
  unfold sextets. apply in_map_iff. exists (N.to_nat n). split.
  - apply N2Nat.id.
  - apply in_seq. lia.
Qed.

Lemma charSextet_sextetChar (n : N) :
  n < 64 -> charSextet (sextetChar n) = Some n.
Proof.
  intros Hn.
  pose proof (all_sextets
    (fun n => match charSextet (sextetChar n) with
              | Some m => N.eqb m n
              | None => false
              end) eq_refl n Hn) as H.
  simpl in H. destruct (charSextet (sextetChar n)) as [m|]; [|discriminate].
  apply N.eqb_eq in H. subst m. reflexivity.
Qed.

Lemma sextetChar_not_pad (n : N) :
  n < 64 -> Ascii.eqb (sextetChar n) pad = false.
Proof.
  intros Hn.
  apply negb_true_iff.
  exact (all_sextets (fun n => negb (Ascii.eqb (sextetChar n) pad))
           eq_refl n Hn).
Qed.

(** Goals with division and remainder by constants. *)
Ltac divmod := zify; Z.to_euclidean_division_equations; lia.

Lemma byte_bound (b : Byte.byte) : Byte.to_N b < 256.
Proof. pose proof (Byte.to_N_bounded b). lia. Qed.

(** The four sextets of a 24-bit group, and the group they rebuild. *)
Lemma group_sextets (a b c : Byte.byte) :
  let n := group a b c in
  n / 262144 < 64 /\ (n / 4096) mod 64 < 64 /\ (n / 64) mod 64 < 64 /\
  n mod 64 < 64 /\
  n / 262144 * 262144 + (n / 4096) mod 64 * 4096 + (n / 64) mod 64 * 64 +
  n mod 64 = n.
Proof.
  unfold group.
  pose proof (byte_bound a). pose proof (byte_bound b).
  pose proof (byte_bound c). cbv zeta. repeat split; divmod.
Qed.

Lemma group_bytes (a b c : Byte.byte) :
  let n := group a b c in
  n / 65536 = Byte.to_N a /\ (n / 256) mod 256 = Byte.to_N b /\
  n mod 256 = Byte.to_N c.
Proof.
  unfold group.
  pose proof (byte_bound a). pose proof (byte_bound b).
  pose proof (byte_bound c). cbv zeta. repeat split; divmod.
Qed.

Lemma decode_full (c0 c1 c2 c3 : ascii) (rest : list ascii) :
  Ascii.eqb c3 pad = false ->
  decode (c0 :: c1 :: c2 :: c3 :: rest) =
  (s0 ← charSextet c0; s1 ← charSextet c1; s2 ← charSextet c2;
   s3 ← charSextet c3;
   let n := (s0 * 262144 + s1 * 4096 + s2 * 64 + s3) in
   a ← Byte.of_N (n / 65536); b ← Byte.of_N ((n / 256) mod 256);
   c ← Byte.of_N (n mod 256);
   tail ← decode rest;
   Some (a :: b :: c :: tail)).
Proof. intros H. cbn [decode]. rewrite H. reflexivity. Qed.

Lemma decode_encode_group (a b c : Byte.byte) (rest : list Byte.byte) :
  decode (encode rest) = Some rest ->
  decode (encode (a :: b :: c :: rest)) = Some (a :: b :: c :: rest).
Proof.
  intros IH. rewrite encode_equation.
  destruct (group_sextets a b c) as (H0 & H1 & H2 & H3 & Hn).
  destruct (group_bytes a b c) as (Ha & Hb & Hc).
  cbv zeta in *. set (n := group a b c) in *.
  rewrite decode_full by (apply sextetChar_not_pad; exact H3).
  rewrite !charSextet_sextetChar by assumption. cbn [mbind option_bind].
  cbv zeta. rewrite Hn, Ha, Hb, Hc, !Byte.of_to_N. cbn [mbind option_bind].
  rewrite IH. reflexivity.
Qed.

Lemma decode_encode_one (a : Byte.byte) : decode (encode [a]) = Some [a].
Proof.
  rewrite encode_equation. cbv zeta. unfold group.
  change (Byte.to_N Byte.x00) with 0.
  pose proof (byte_bound a) as Ha.
  set (n := Byte.to_N a * 65536 + 0 * 256 + 0).
  assert (H0 : n / 262144 < 64) by (subst n; divmod).
  assert (H1 : (n / 4096) mod 64 < 64) by (subst n; divmod).
  assert (Hv : (n / 262144 * 64 + (n / 4096) mod 64) / 16 = Byte.to_N a)
    by (subst n; divmod).
  cbn [decode]. rewrite Ascii.eqb_refl.
  rewrite !charSextet_sextetChar by assumption. cbn [mbind option_bind].
  rewrite Hv, Byte.of_to_N. reflexivity.
Qed.

Lemma decode_encode_two (a b : Byte.byte) :
  decode (encode [a; b]) = Some [a; b].
Proof.
  rewrite encode_equation. cbv zeta. unfold group.
  change (Byte.to_N Byte.x00) with 0.
  pose proof (byte_bound a) as Ha. pose proof (byte_bound b) as Hb.
  set (n := Byte.to_N a * 65536 + Byte.to_N b * 256 + 0).
  assert (H0 : n / 262144 < 64) by (subst n; divmod).
  assert (H1 : (n / 4096) mod 64 < 64) by (subst n; divmod).
  assert (H2 : (n / 64) mod 64 < 64) by (subst n; divmod).
  set (m := n / 262144 * 4096 + (n / 4096) mod 64 * 64 + (n / 64) mod 64).
  assert (Hva : m / 1024 = Byte.to_N a) by (subst m n; divmod).
  assert (Hvb : (m / 4) mod 256 = Byte.to_N b) by (subst m n; divmod).
  cbn [decode]. rewrite Ascii.eqb_refl.
  rewrite (sextetChar_not_pad _ H2).
  rewrite !charSextet_sextetChar by assumption. cbn [mbind option_bind].
  cbv zeta. fold m. rewrite Hva, Hvb, !Byte.of_to_N. reflexivity.
Qed.

(** The round trip of the encoding. *)
Lemma decode_encode (bs : list Byte.byte) : decode (encode bs) = Some bs.
Proof.
  functional induction (encode bs).
  - reflexivity.
  - apply decode_encode_one.
  - apply decode_encode_two.
  - apply decode_encode_group. exact IHl.
Qed.

Lemma decodeString_encodeString (bs : list Byte.byte) :
  decodeString (encodeString bs) = Some bs.
Proof.
  unfold decodeString, encodeString.
  rewrite String.list_ascii_of_string_of_list_ascii. apply decode_encode.
Qed.

End Base64Facts.

(** ** Splitting a data URL at its commas *)

Section Split.

Let comma : ascii := ","%char.

Lemma includes_comma_cons (c : ascii) (s : string) :
  Js.includes "," (String c s) = Ascii.eqb comma c || Js.includes "," s.
Proof.
  change (Js.includes "," (String c s))
    with (Js.startsWith "," (String c s) || Js.includes "," s).
  cbn [Js.startsWith]. fold comma.
  destruct (Ascii.eqb comma c); reflexivity.
Qed.

Lemma split_nonempty (sep : ascii) (s : string) : Js.split sep s <> [].
Proof.
  destruct s as [|c s]; simpl; [discriminate|].
  destruct (Ascii.eqb c sep); [discriminate|].
  destruct (Js.split sep s); discriminate.
Qed.

Lemma split_comma_free (s : string) :
  Js.includes "," s = false -> Js.split comma s = [s].
Proof.
  induction s as [|c s IH]; [reflexivity|].
  rewrite includes_comma_cons. intros H.
  apply orb_false_iff in H. destruct H as [Hc Hs].
  simpl. rewrite Ascii.eqb_sym, Hc, (IH Hs). reflexivity.
Qed.

Lemma split_app (a b : string) :
  Js.includes "," a = false ->
  Js.split comma (a +:+ b) =
  match Js.split comma b with
  | piece :: pieces => (a +:+ piece) :: pieces
  | [] => [a]
  end.
Proof.
  induction a as [|c a IH]; intros H.
  - change ("" +:+ b) with b.
    destruct (Js.split comma b) eqn:E; [|reflexivity].
    exfalso. exact (split_nonempty _ _ E).
  - rewrite includes_comma_cons in H.
    apply orb_false_iff in H. destruct H as [Hc Ha].
    simpl. rewrite Ascii.eqb_sym, Hc, (IH Ha).
    destruct (Js.split comma b); reflexivity.
Qed.

Lemma includes_comma_of_list (l : list ascii) :
  Js.includes "," (String.string_of_list_ascii l)
  = existsb (Ascii.eqb comma) l.
Proof.
  induction l as [|c l IH]; [reflexivity|].
  cbn [String.string_of_list_ascii existsb].
  rewrite includes_comma_cons, IH. reflexivity.
Qed.

Lemma sextetChar_not_comma (n : N) :
  Ascii.eqb comma (Base64.sextetChar n) = false.
Proof.
  unfold Base64.sextetChar.
  destruct (nth_in_or_default (N.to_nat n) Base64.alphabet Base64.pad)
    as [Hin | ->]; [|reflexivity].
  assert (Hall : forallb (fun c => negb (Ascii.eqb comma c)) Base64.alphabet
                 = true) by reflexivity.
  rewrite forallb_forall in Hall. apply negb_true_iff, Hall, Hin.
Qed.

Lemma encode_comma_free (bs : list Byte.byte) :
  existsb (Ascii.eqb comma) (Base64.encode bs) = false.
Proof.
  functional induction (Base64.encode bs); cbn [existsb];
    rewrite ?sextetChar_not_comma; try reflexivity.
  exact IHl.
Qed.

Lemma encodeString_comma_free (bs : list Byte.byte) :
  Js.includes "," (Base64.encodeString bs) = false.
Proof.
  unfold Base64.encodeString.
  rewrite includes_comma_of_list. apply encode_comma_free.
Qed.

Lemma split_base64_suffix (payload : string) :
  Js.split comma (";base64," +:+ payload)
  = ";base64" :: Js.split comma payload.
Proof. reflexivity. Qed.

(** The second piece of a data URL whose media type has no comma is its
    radix-64 text. *)
Lemma split_data_url_payload (mediaType : string) (bs : list Byte.byte) :
  Js.includes "," mediaType = false ->
  Js.split comma
    ("data:" +:+ mediaType +:+ ";base64," +:+ Base64.encodeString bs)
    !! 1%nat
  = Some (Base64.encodeString bs).
Proof.
  intros Hm.
  rewrite (split_app "data:") by reflexivity.
  rewrite (split_app mediaType) by exact Hm.
  rewrite split_base64_suffix.
  rewrite (split_comma_free _ (encodeString_comma_free bs)). reflexivity.
Qed.

End Split.

(** ** The claim about the encoder *)

(** C6, as the specification words it, fails on a readable file whose
    declared type holds a comma: the second piece of the split data URL is
    then a fragment of the type, not the radix-64 text of the bytes. *)
Lemma comma_in_media_type_counterexample :
  FileReader.readAsDataURL commaFile = Some "data:image/x,y;base64,AQ=="
  /\ ImageUtils.fileToGenerativePart commaFile
     = Resolved (mkPart (Some (mkBlob (Some "y;base64") (Some "image/x,y")))
                        None)
  /\ Base64.encodeString [Byte.x01] = "AQ=="
  /\ Base64.decodeString "y;base64" = None.
Proof. repeat split. Qed.

(** C6 (amended): for every readable file whose declared media type holds
    no comma, the encoder resolves to the bare radix-64 text of the file's
    bytes, with the data-URL prefix stripped, paired with the declared media
    type; and decoding that payload gives back the bytes of the file. *)
Theorem encoder_round_trip (file : File) (bs : list Byte.byte) :
  file_bytes file = Some bs ->
  Js.includes "," (file_type file) = false ->
  ImageUtils.fileToGenerativePart file
  = Resolved (mkPart (Some (mkBlob (Some (Base64.encodeString bs))
                                   (Some (file_type file))))
                     None)
  /\ Base64.decodeString (Base64.encodeString bs) = Some bs.
Proof.
  intros Hbytes Htype. split; [|apply decodeString_encodeString].
  unfold ImageUtils.fileToGenerativePart, FileReader.readAsDataURL.
  rewrite Hbytes.
  assert (Hurl : Js.includes "," (FileReader.urlMediaType (file_type file))
                 = false).
  { unfold FileReader.urlMediaType.
    destruct (String.eqb (file_type file) ""); [reflexivity | exact Htype]. }
  cbv zeta. rewrite (split_data_url_payload _ bs Hurl). reflexivity.
Qed.

Lemma encoder_round_trip_witness :
  ImageUtils.fileToGenerativePart pngFile
  = Resolved (mkPart (Some (mkBlob (Some "iVBORw==") (Some "image/png")))
                     None)
  /\ Base64.decodeString "iVBORw=="
     = Some [Byte.x89; Byte.x50; Byte.x4e; Byte.x47].
Proof.
  exact (encoder_round_trip pngFile [Byte.x89; Byte.x50; Byte.x4e; Byte.x47]
           eq_refl eq_refl).
Defined.

(** ** The claim about module initialisation *)

(** C7, as the specification words it, fails on an environment in which the
    key is present with the empty string as its value: initialisation
    throws there too, and constructs no client. *)
Lemma empty_key_counterexample :
  emptyKeyEnv !! "API_KEY" = Some ""
  /\ GeminiService.moduleInit emptyKeyEnv pristine
     = (inl (Js.Error "API_KEY environment variable is not set"), pristine).
Proof. split; reflexivity. Qed.

(** C7 (amended): when the key is absent from the environment, or is the
    empty string, initialisation throws the configuration error and changes
    nothing (no client is constructed); when the key is present and not
    empty, initialisation succeeds and constructs one client with that
    key. *)
Theorem init_needs_a_key (env : gmap string string) (w : World) :
  (env !! "API_KEY" = None \/ env !! "API_KEY" = Some "" ->
   GeminiService.moduleInit env w
   = (inl (Js.Error "API_KEY environment variable is not set"), w))
  /\ (forall key,
        env !! "API_KEY" = Some key -> key <> "" ->
        GeminiService.moduleInit env w
        = (inr (mkClient (Some key)), withClient w (mkClient (Some key)))).
Proof.
  unfold GeminiService.moduleInit. split.
  - intros [-> | ->]; reflexivity.
  - intros key -> Hkey. simpl.
    destruct (String.eqb key "") eqn:E; [|reflexivity].
    apply String.eqb_eq in E. contradiction.
Qed.

Lemma init_needs_a_key_witness :
  GeminiService.moduleInit keyedEnv pristine
  = (inr (mkClient (Some "k-123")),
     withClient pristine (mkClient (Some "k-123"))).
Proof.
  refine (proj2 (init_needs_a_key keyedEnv pristine) "k-123" eq_refl _).
  discriminate.
Defined.

(** ** Further properties of the adapter *)

Section AdapterMore.

Import GeminiService.

Variables (pf : Platform) (ai : GoogleGenAI) (imagePart : Part)
  (textPrompt : string) (w : World).

Lemma attempt_world :
  snd (attempt pf ai imagePart textPrompt w)
  = withCall w ai (request imagePart textPrompt).
Proof.
  rewrite attempt_run.
  destruct (settle pf ai (request imagePart textPrompt)) as [e|r];
    [reflexivity | apply normalise_world].
Qed.

Lemma lastBinary_some_iff (ps : list Part) :
  lastBinary ps <> None <-> Exists (fun p => isBinaryPart p = true) ps.
Proof.
  split.
  - intros H. destruct (decide (Exists (fun p => isBinaryPart p = true) ps))
      as [Hex|Hno]; [exact Hex|].
    exfalso. apply H, lastBinary_none.
    apply Forall_forall. intros p Hp.
    destruct (isBinaryPart p) eqn:E; [|reflexivity].
    exfalso. apply Hno, Exists_exists. exists p. auto.
  - intros Hex Hnone. apply Exists_exists in Hex.
    destruct Hex as (p & Hin & Hp). unfold isBinaryPart in Hp.
    destruct (inlineData p) as [b|] eqn:E; [|discriminate].
    assert (Hmem : b ∈ omap inlineData ps)
      by (apply list_elem_of_omap; exists p; auto).
    unfold lastBinary in Hnone. apply last_None in Hnone.
    rewrite Hnone in Hmem. inversion Hmem.
Qed.

Lemma lastNonEmptyText_some_iff (ps : list Part) :
  lastNonEmptyText ps <> None
  <-> Exists (fun p => isNonEmptyTextPart p = true) ps.
Proof.
  split.
  - intros H.
    destruct (decide (Exists (fun p => isNonEmptyTextPart p = true) ps))
      as [Hex|Hno]; [exact Hex|].
    exfalso. apply H. unfold lastNonEmptyText.
    replace (omap nonEmptyTextContent ps) with (@nil string); [reflexivity|].
    assert (Hall : Forall (fun p => isNonEmptyTextPart p = false) ps).
    { apply Forall_forall. intros p Hp.
      destruct (isNonEmptyTextPart p) eqn:E; [|reflexivity].
      exfalso. apply Hno, Exists_exists. exists p. auto. }
    clear H Hno. induction Hall as [|p ps Hp _ IH]; [reflexivity|].
    simpl. unfold nonEmptyTextContent. fold (isNonEmptyTextPart p).
    rewrite Hp. exact IH.
  - intros Hex Hnone.
    destruct (lastNonEmptyText_some ps) as [s Hs]; [|congruence].
    eapply Exists_impl; [exact Hex|]. intros p Hp.
    apply andb_true_iff in Hp. exact Hp.
Qed.

(** The three ways an invocation ends. *)
Lemma outcome_cases :
  (exists r ps,
     settle pf ai (request imagePart textPrompt) = inr r /\
     scannedSequence r = Some ps /\
     (lastBinary ps <> None \/ lastNonEmptyText ps <> None) /\
     fst (editImageWithPrompt pf ai imagePart textPrompt w)
     = inr (mkEditResult (dataUri <$> lastBinary ps) (lastNonEmptyText ps)))
  \/ fst (editImageWithPrompt pf ai imagePart textPrompt w)
     = inl (Js.Error permissionMessage)
  \/ fst (editImageWithPrompt pf ai imagePart textPrompt w)
     = inl (Js.Error genericMessage).
Proof.
  destruct (settle pf ai (request imagePart textPrompt)) as [e|r] eqn:Hs.
  - right.
    rewrite (outcome_thrown pf ai imagePart textPrompt w e
               (outcome_rejected pf ai imagePart textPrompt w e Hs)).
    destruct (mentionsPermission e); auto.
  - destruct (response_shapes r) as [[ps Hps] | [[Hn _] | [Hn _]]].
    + pose proof (outcome_scanned pf ai imagePart textPrompt w r ps Hs Hps)
        as Ho.
      destruct (lastBinary ps) as [b|] eqn:Eb.
      * left. exists r, ps. rewrite Eb.
        split; [reflexivity|]. split; [exact Hps|].
        split; [left; discriminate | exact Ho].
      * destruct (lastNonEmptyText ps) as [s|] eqn:Et.
        -- left. exists r, ps. rewrite Eb, Et.
           split; [reflexivity|]. split; [exact Hps|].
           split; [right; discriminate | exact Ho].
        -- right; right. exact Ho.
    + right; right.
      apply (outcome_unscanned pf ai imagePart textPrompt w r Hs Hn).
    + right; right.
      apply (outcome_unscanned pf ai imagePart textPrompt w r Hs Hn).
Qed.

End AdapterMore.

(** X1: the diagnostics of the adapter. Whatever the [try] block threw is
    written to the console once, under the label of the adapter and as it
    was thrown; an invocation that returns a result writes nothing; and no
    invocation constructs a client. *)
Theorem failure_is_logged_once (pf : Platform) (ai : GoogleGenAI)
    (imagePart : Part) (textPrompt : string) (w : World) :
  constructed
    (snd (GeminiService.editImageWithPrompt pf ai imagePart textPrompt w))
  = constructed w
  /\ console
       (snd (GeminiService.editImageWithPrompt pf ai imagePart textPrompt w))
     = match fst (GeminiService.attempt pf ai imagePart textPrompt w) with
       | inl e => (console w ++ [("Error calling Gemini API:", e)])%list
       | inr _ => console w
       end
  /\ (forall e,
        settle pf ai (GeminiService.request imagePart textPrompt) = inl e ->
        fst (GeminiService.attempt pf ai imagePart textPrompt w) = inl e).
Proof.
  pose proof (attempt_world pf ai imagePart textPrompt w) as Hw.
  rewrite edit_run.
  destruct (GeminiService.attempt pf ai imagePart textPrompt w)
    as [[e|result] w'] eqn:Ha; simpl in Hw; subst w'; simpl.
  - repeat split. intros e' He'.
    pose proof (outcome_rejected pf ai imagePart textPrompt w e' He') as H.
    rewrite Ha in H. exact H.
  - repeat split. intros e' He'.
    pose proof (outcome_rejected pf ai imagePart textPrompt w e' He') as H.
    rewrite Ha in H. exact H.
Qed.

(** X2: the adapter returns a result exactly when the remote call resolved
    with a response whose scanned part sequence holds a binary part or a
    non-empty text part; every other invocation throws. *)
Theorem success_iff_usable_part (pf : Platform) (ai : GoogleGenAI)
    (imagePart : Part) (textPrompt : string) (w : World) :
  (exists result,
     fst (GeminiService.editImageWithPrompt pf ai imagePart textPrompt w)
     = inr result)
  <-> (exists r ps,
         settle pf ai (GeminiService.request imagePart textPrompt) = inr r /\
         scannedSequence r = Some ps /\
         Exists (fun p => isUsablePart p = true) ps).
Proof.
  split.
  - intros [result Hres].
    destruct (outcome_cases pf ai imagePart textPrompt w)
      as [(r & ps & Hs & Hps & Hsome & _) | [H | H]];
      [| rewrite H in Hres; discriminate | rewrite H in Hres; discriminate].
    exists r, ps. repeat split; auto.
    destruct Hsome as [Hb | Ht].
    + apply lastBinary_some_iff in Hb.
      eapply Exists_impl; [exact Hb|]. intros p Hp.
      unfold isUsablePart. rewrite Hp. reflexivity.
    + apply lastNonEmptyText_some_iff in Ht.
      eapply Exists_impl; [exact Ht|]. intros p Hp.
      unfold isUsablePart. rewrite Hp. apply orb_true_r.
  - intros (r & ps & Hs & Hps & Hex).
    rewrite (outcome_scanned pf ai imagePart textPrompt w r ps Hs Hps).
    assert (Hsome : lastBinary ps <> None \/ lastNonEmptyText ps <> None).
    { apply Exists_exists in Hex. destruct Hex as (p & Hin & Hp).
      apply orb_true_iff in Hp. destruct Hp as [Hp|Hp].
      - left. apply lastBinary_some_iff, Exists_exists. exists p. auto.
      - right. apply lastNonEmptyText_some_iff, Exists_exists.
        exists p. auto. }
    destruct (lastBinary ps), (lastNonEmptyText ps); eauto.
    destruct Hsome as [H|H]; contradiction H; reflexivity.
Qed.



Lemma omap_filter {A B} (f : A -> option B) (keep : A -> bool)
    (l : list A) :
  (forall x, keep x = false -> f x = None) ->
  omap f (List.filter keep l) = omap f l.
Proof.
  intros H. induction l as [|x l IH]; [reflexivity|].
  change (List.filter keep (x :: l))
    with (if keep x then x :: List.filter keep l else List.filter keep l).
  change (omap f (x :: l))
    with (match f x with Some y => y :: omap f l | None => omap f l end).
  destruct (keep x) eqn:E.
  - change (omap f (x :: List.filter keep l))
      with (match f x with
            | Some y => y :: omap f (List.filter keep l)
            | None => omap f (List.filter keep l)
            end).
    rewrite IH. reflexivity.
  - rewrite (H x E). exact IH.
Qed.

Lemma lastBinary_filter (keep : Part -> bool) (ps : list Part) :
  (forall p, keep p = false -> isBinaryPart p = false) ->
  lastBinary (List.filter keep ps) = lastBinary ps.
Proof.
  intros H. unfold lastBinary. rewrite omap_filter; [reflexivity|].
  intros p Hp. specialize (H p Hp). unfold isBinaryPart in H.
  destruct (inlineData p); [discriminate | reflexivity].
Qed.

Lemma lastNonEmptyText_filter (keep : Part -> bool) (ps : list Part) :
  (forall p, keep p = false -> isNonEmptyTextPart p = false) ->
  lastNonEmptyText (List.filter keep ps) = lastNonEmptyText ps.
Proof.
  intros H. unfold lastNonEmptyText. rewrite omap_filter; [reflexivity|].
  intros p Hp. specialize (H p Hp). unfold nonEmptyTextContent.
  fold (isNonEmptyTextPart p). rewrite H. reflexivity.
Qed.

(** X4: parts the scan does not act on are ignored wherever they stand.
    Removing from the scanned sequence every part that is neither a binary
    part nor a non-empty text part (empty texts, parts of other kinds)
    leaves the outcome of the adapter unchanged. *)
Theorem unusable_parts_are_ignored (pf pf' : Platform) (ai : GoogleGenAI)
    (imagePart : Part) (textPrompt : string) (w : World)
    (r r' : GenerateContentResponse) (ps : list Part) :
  settle pf ai (GeminiService.request imagePart textPrompt) = inr r ->
  settle pf' ai (GeminiService.request imagePart textPrompt) = inr r' ->
  scannedSequence r = Some ps ->
  scannedSequence r' = Some (List.filter isUsablePart ps) ->
  fst (GeminiService.editImageWithPrompt pf ai imagePart textPrompt w)
  = fst (GeminiService.editImageWithPrompt pf' ai imagePart textPrompt w).
Proof.
  intros Hr Hr' Hps Hps'.
  rewrite (outcome_scanned pf ai imagePart textPrompt w r _ Hr Hps),
    (outcome_scanned pf' ai imagePart textPrompt w r' _ Hr' Hps').
  rewrite lastBinary_filter, lastNonEmptyText_filter; [reflexivity | |];
    intros p Hp; apply orb_false_iff in Hp; apply Hp.
Qed.

Lemma unusable_parts_are_ignored_witness :
  fst (GeminiService.editImageWithPrompt
         (settling (inr (responseOf interleaved)))
         someClient (pngPart "AQID") "Vintage Film" pristine)
  = fst (GeminiService.editImageWithPrompt
           (settling (inr (responseOf (List.filter isUsablePart interleaved))))
           someClient (pngPart "AQID") "Vintage Film" pristine).
Proof.
  exact (unusable_parts_are_ignored
           (settling (inr (responseOf interleaved)))
           (settling (inr (responseOf (List.filter isUsablePart interleaved))))
           someClient (pngPart "AQID") "Vintage Film" pristine
           _ _ interleaved eq_refl eq_refl eq_refl eq_refl).
Defined.

(** X5: image and text are collected independently of each other. Two
    scanned sequences with the same binary parts in the same order and the
    same text parts in the same order give the same outcome, however the
    two kinds are interleaved. *)
Theorem interleaving_does_not_matter (pf pf' : Platform) (ai : GoogleGenAI)
    (imagePart : Part) (textPrompt : string) (w : World)
    (r r' : GenerateContentResponse) (ps ps' : list Part) :
  settle pf ai (GeminiService.request imagePart textPrompt) = inr r ->
  settle pf' ai (GeminiService.request imagePart textPrompt) = inr r' ->
  scannedSequence r = Some ps ->
  scannedSequence r' = Some ps' ->
  List.filter isBinaryPart ps = List.filter isBinaryPart ps' ->
  List.filter isTextPart ps = List.filter isTextPart ps' ->
  fst (GeminiService.editImageWithPrompt pf ai imagePart textPrompt w)
  = fst (GeminiService.editImageWithPrompt pf' ai imagePart textPrompt w).
Proof.
  intros Hr Hr' Hps Hps' Hbin Htext.
  rewrite (outcome_scanned pf ai imagePart textPrompt w r _ Hr Hps),
    (outcome_scanned pf' ai imagePart textPrompt w r' _ Hr' Hps').
  rewrite <- (lastBinary_filter isBinaryPart ps) by auto.
  rewrite <- (lastBinary_filter isBinaryPart ps') by auto.
  rewrite <- (lastNonEmptyText_filter isTextPart ps).
  2: { intros p Hp. unfold isNonEmptyTextPart. rewrite Hp. reflexivity. }
  rewrite <- (lastNonEmptyText_filter isTextPart ps').
  2: { intros p Hp. unfold isNonEmptyTextPart. rewrite Hp. reflexivity. }
  rewrite Hbin, Htext. reflexivity.
Qed.

Lemma interleaving_does_not_matter_witness :
  fst (GeminiService.editImageWithPrompt
         (settling (inr (responseOf interleaved)))
         someClient (pngPart "AQID") "Vintage Film" pristine)
  = fst (GeminiService.editImageWithPrompt
           (settling (inr (responseOf grouped)))
           someClient (pngPart "AQID") "Vintage Film" pristine).
Proof.
  exact (interleaving_does_not_matter
           (settling (inr (responseOf interleaved)))
           (settling (inr (responseOf grouped)))
           someClient (pngPart "AQID") "Vintage Film" pristine
           _ _ interleaved grouped eq_refl eq_refl eq_refl eq_refl
           eq_refl eq_refl).
Defined.

(** ** Further properties of module initialisation *)

(** X6: initialisation reads no variable of the environment but the key:
    setting or removing any other variable changes neither its outcome nor
    what it does. *)
Theorem init_reads_only_the_key (env : gmap string string)
    (name value : string) (w : World) :
  name <> "API_KEY" ->
  GeminiService.moduleInit (<[name := value]> env) w
  = GeminiService.moduleInit env w
  /\ GeminiService.moduleInit (delete name env) w
     = GeminiService.moduleInit env w.
Proof.
  intros Hne. unfold GeminiService.moduleInit.
  rewrite lookup_insert_ne, lookup_delete_ne by exact Hne.
  split; reflexivity.
Qed.

Lemma init_reads_only_the_key_witness :
  GeminiService.moduleInit (<["NODE_ENV" := "test"]> keyedEnv) pristine
  = GeminiService.moduleInit keyedEnv pristine
  /\ GeminiService.moduleInit (delete "NODE_ENV" keyedEnv) pristine
     = GeminiService.moduleInit keyedEnv pristine.
Proof.
  refine (init_reads_only_the_key keyedEnv "NODE_ENV" "test" pristine _).
  discriminate.
Defined.

(** X7: initialisation and the adapter together. When the module loads,
    it constructs one client, which holds the key of the environment; and
    an invocation of the adapter on that client then issues its one call
    on it, and constructs no further client. *)
Theorem the_call_uses_the_environment_key (env : gmap string string)
    (pf : Platform) (imagePart : Part) (textPrompt : string)
    (w w1 : World) (ai : GoogleGenAI) :
  GeminiService.moduleInit env w = (inr ai, w1) ->
  apiKey ai = env !! "API_KEY"
  /\ Js.truthy (apiKey ai) = true
  /\ constructed w1 = (constructed w ++ [ai])%list
  /\ constructed
       (snd (GeminiService.editImageWithPrompt pf ai imagePart textPrompt w1))
     = (constructed w ++ [ai])%list
  /\ issued
       (snd (GeminiService.editImageWithPrompt pf ai imagePart textPrompt w1))
     = (issued w ++
        [(mkClient (env !! "API_KEY"),
          GeminiService.request imagePart textPrompt)])%list.
Proof.
  unfold GeminiService.moduleInit.
  destruct (Js.truthy (env !! "API_KEY")) eqn:Ekey; simpl; [|discriminate].
  unfold construct. intros [= <- <-]. simpl.
  split; [reflexivity|]. split; [exact Ekey|]. split; [reflexivity|].
  rewrite edit_run.
  pose proof (attempt_world pf (mkClient (env !! "API_KEY")) imagePart
                textPrompt
                (withClient w (mkClient (env !! "API_KEY")))) as Hw.
  destruct (GeminiService.attempt pf _ imagePart textPrompt _)
    as [[e|result] w'']; simpl in Hw; subst w''; split; reflexivity.
Qed.

Lemma the_call_uses_the_environment_key_witness :
  issued
    (snd (GeminiService.editImageWithPrompt
            (settling (inr (responseOf twoOfEach))) (mkClient (Some "k-123"))
            (pngPart "AQID") "Vintage Film"
            (withClient pristine (mkClient (Some "k-123")))))
  = [(mkClient (Some "k-123"),
      GeminiService.request (pngPart "AQID") "Vintage Film")].
Proof.
  exact (proj2 (proj2 (proj2 (proj2
           (the_call_uses_the_environment_key keyedEnv
              (settling (inr (responseOf twoOfEach)))
              (pngPart "AQID") "Vintage Film" pristine
              (withClient pristine (mkClient (Some "k-123")))
              (mkClient (Some "k-123")) eq_refl))))).
Defined.

(** ** The encoder on a file whose type has no comma *)

(** The payload of a readable file whose type has no comma. *)
Lemma encoder_payload (file : File) (bs : list Byte.byte) :
  file_bytes file = Some bs ->
  Js.includes "," (file_type file) = false ->
  ImageUtils.fileToGenerativePart file
  = Resolved (mkPart (Some (mkBlob (Some (Base64.encodeString bs))
                                   (Some (file_type file))))
                     None).
Proof.
  intros Hbytes Htype.
  unfold ImageUtils.fileToGenerativePart, FileReader.readAsDataURL.
  rewrite Hbytes. cbv zeta. rewrite split_data_url_payload; [reflexivity|].
  unfold FileReader.urlMediaType.
  destruct (String.eqb (file_type file) ""); [reflexivity | exact Htype].
Qed.

(** ** The component: selecting an image *)

Lemma image_type_in_url (t : string) :
  Js.startsWith "image/" t = true -> FileReader.urlMediaType t = t.
Proof.
  unfold FileReader.urlMediaType.
  destruct t as [|c t]; [discriminate | reflexivity].
Qed.

(** X8: a selection or a drop without an image file is refused and loses
    nothing. When the list of files is empty, or its first file has a type
    that does not begin with "image/", no read is started and only the
    error message changes: the image selected before, its preview, the
    edited image, the prompt and the spinner stay as they were (a drop
    also clears the drag highlight). *)
Theorem refused_file_changes_only_the_error (files : list File)
    (st : App.State) :
  (forall f, files !! 0%nat = Some f ->
     Js.startsWith "image/" (file_type f) = false) ->
  App.handleFileSelect files st
  = (App.setError (Some "Please select a valid image file.") st, None)
  /\ App.handleDrop files st
     = (App.setError (Some "Please select a valid image file.")
          (App.setIsDragging false st), None).
Proof.
  intros H. unfold App.handleFileSelect, App.handleDrop, App.handleImageChange.
  destruct (files !! 0%nat) as [f|]; [|split; reflexivity].
  rewrite (H f eq_refl). split; reflexivity.
Qed.

Lemma refused_file_changes_only_the_error_witness :
  App.handleFileSelect [textFile; pngFile] readyState
  = (App.setError (Some "Please select a valid image file.") readyState, None)
  /\ App.handleDrop [textFile; pngFile] readyState
     = (App.setError (Some "Please select a valid image file.")
          (App.setIsDragging false readyState), None).
Proof.
  refine (refused_file_changes_only_the_error [textFile; pngFile] readyState _).
  intros f [= <-]. reflexivity.
Defined.

(** X9: an image file is accepted whatever the state. The image, preview,
    edited image, error and spinner of before are discarded, the prompt and
    the drag highlight are kept, the file is handed to the reader; and when
    the read of a readable, non-empty file ends, the preview is the data
    URL of its bytes under its declared type. *)
Theorem accepted_image_resets_and_previews (f : File) (bs : list Byte.byte)
    (st : App.State) :
  Js.startsWith "image/" (file_type f) = true ->
  file_bytes f = Some bs ->
  bs <> [] ->
  App.handleImageChange (Some f) st
  = (App.mkState (Some f) None None (App.prompt st) false None
       (App.isDragging st), Some f)
  /\ App.previewLoaded f (fst (App.handleImageChange (Some f) st))
     = App.mkState (Some f)
         (Some ("data:" +:+ file_type f +:+ ";base64," +:+
                Base64.encodeString bs))
         None (App.prompt st) false None (App.isDragging st).
Proof.
  intros Htype Hbytes _. unfold App.handleImageChange. rewrite Htype.
  split; [reflexivity|].
  unfold App.previewLoaded, FileReader.readAsDataURL.
  rewrite Hbytes, (image_type_in_url _ Htype). reflexivity.
Qed.

Lemma accepted_image_resets_and_previews_witness :
  App.handleImageChange (Some pngFile) readyState
  = (App.mkState (Some pngFile) None None "Vintage Film" false None false,
     Some pngFile)
  /\ App.previewLoaded pngFile
       (fst (App.handleImageChange (Some pngFile) readyState))
     = App.mkState (Some pngFile) (Some "data:image/png;base64,iVBORw==")
         None "Vintage Film" false None false.
Proof.
  refine (accepted_image_resets_and_previews pngFile
            [Byte.x89; Byte.x50; Byte.x4e; Byte.x47] readyState
            eq_refl eq_refl _).
  discriminate.
Defined.



(** ** The component: generating *)

Section Generate.

Variables (pf : Platform) (ai : GoogleGenAI) (st : App.State) (w : World).

Lemma generateStart_ok (f : File) :
  App.originalImage st = Some f ->
  App.prompt st <> "" ->
  App.generateStart st
  = (App.setError None
       (App.setEditedImageUrl None (App.setIsLoading true st)),
     Some (f, App.prompt st)).
Proof.
  intros Hf Hp. unfold App.generateStart. rewrite Hf. simpl.
  destruct (String.eqb (App.prompt st) "") eqn:E; [|reflexivity].
  apply String.eqb_eq in E. contradiction.
Qed.

Lemma encoder_resolves (f : File) (bs : list Byte.byte) :
  file_bytes f = Some bs ->
  exists imagePart, ImageUtils.fileToGenerativePart f = Resolved imagePart.
Proof.
  intros Hb. unfold ImageUtils.fileToGenerativePart, FileReader.readAsDataURL.
  rewrite Hb. eexists. reflexivity.
Qed.

(** A run with both inputs and a readable file goes through the adapter
    once and then through the rest of the handler. *)
Lemma handleGenerate_settled (f : File) (imagePart : Part) :
  App.originalImage st = Some f ->
  App.prompt st <> "" ->
  ImageUtils.fileToGenerativePart f = Resolved imagePart ->
  App.handleGenerate pf ai st w
  = App.generateFinish
      (fst (GeminiService.editImageWithPrompt pf ai imagePart
              (App.prompt st) w))
      (App.setError None
         (App.setEditedImageUrl None (App.setIsLoading true st)))
      (snd (GeminiService.editImageWithPrompt pf ai imagePart
              (App.prompt st) w)).
Proof.
  intros Hf Hp Henc. unfold App.handleGenerate, App.generateWork.
  rewrite (generateStart_ok f Hf Hp), Henc.
  destruct (GeminiService.editImageWithPrompt pf ai imagePart
              (App.prompt st) w) as [outcome w'].
  reflexivity.
Qed.

End Generate.

(** X11: Generate without its inputs. With no image selected or an empty
    prompt the handler only sets its error message: no remote call is
    issued, nothing is logged, the spinner is not started, and an edited
    image of an earlier run stays on the page beside the message. *)
Theorem generate_without_inputs_only_warns (pf : Platform) (ai : GoogleGenAI)
    (st : App.State) (w : World) :
  App.originalImage st = None \/ App.prompt st = "" ->
  App.handleGenerate pf ai st w
  = (App.setError (Some "Please select an image and enter a prompt.") st, w)
  /\ App.showsEdited (fst (App.handleGenerate pf ai st w))
     = App.showsEdited st.
Proof.
  intros H.
  assert (Hs : App.generateStart st
               = (App.setError (Some App.missingInputMessage) st, None)).
  { unfold App.generateStart. destruct H as [-> | Hp]; [reflexivity|].
    rewrite Hp. destruct (App.originalImage st); reflexivity. }
  unfold App.handleGenerate. rewrite Hs. split; reflexivity.
Qed.

Lemma generate_without_inputs_only_warns_witness :
  App.handleGenerate (settling (inr (responseOf twoOfEach))) someClient
    (App.setPrompt "" readyState) pristine
  = (App.setError (Some "Please select an image and enter a prompt.")
       (App.setPrompt "" readyState), pristine)
  /\ App.showsEdited
       (fst (App.handleGenerate (settling (inr (responseOf twoOfEach)))
               someClient (App.setPrompt "" readyState) pristine))
     = App.showsEdited (App.setPrompt "" readyState).
Proof.
  exact (generate_without_inputs_only_warns
           (settling (inr (responseOf twoOfEach))) someClient
           (App.setPrompt "" readyState) pristine (or_intror eq_refl)).
Defined.





(** X14: Generate on a file that cannot be read never finishes. The
    encoder's promise stays pending, so the handler stops after its first
    step: the spinner stays on, the button stays disabled, nothing is
    shown, no remote call is issued and nothing is logged. *)
Theorem unreadable_file_leaves_spinner_on (pf : Platform) (ai : GoogleGenAI)
    (st : App.State) (w : World) (f : File) :
  App.originalImage st = Some f ->
  App.prompt st <> "" ->
  file_bytes f = None ->
  snd (App.handleGenerate pf ai st w) = w
  /\ App.isLoading (fst (App.handleGenerate pf ai st w)) = true
  /\ App.generateDisabled (fst (App.handleGenerate pf ai st w)) = true
  /\ App.showsError (fst (App.handleGenerate pf ai st w)) = false
  /\ App.showsEdited (fst (App.handleGenerate pf ai st w)) = false.
Proof.
  intros Hf Hp Hb. unfold App.handleGenerate, App.generateWork.
  rewrite (generateStart_ok st f Hf Hp).
  unfold ImageUtils.fileToGenerativePart, FileReader.readAsDataURL.
  rewrite Hb. repeat split.
Qed.

Lemma unreadable_file_leaves_spinner_on_witness :
  snd (App.handleGenerate (settling (inr (responseOf twoOfEach))) someClient
         unreadableState pristine) = pristine
  /\ App.isLoading
       (fst (App.handleGenerate (settling (inr (responseOf twoOfEach)))
               someClient unreadableState pristine)) = true.
Proof.
  pose proof (unreadable_file_leaves_spinner_on
                (settling (inr (responseOf twoOfEach))) someClient
                unreadableState pristine unreadableFile eq_refl) as H.
  refine (let H' := H _ eq_refl in conj (proj1 H') (proj1 (proj2 H'))).
  discriminate.
Defined.

(** X15: what Generate sends. For a readable, non-empty file whose type has
    no comma,
    a run with its inputs issues exactly one remote call, on the module's
    client: the image part carries the declared type of the file and a
    payload that decodes to the bytes of the file, the text part carries
    the prompt as it was typed, and both modalities are requested. *)
Theorem generate_sends_the_file_and_the_prompt (pf : Platform)
    (ai : GoogleGenAI) (st : App.State) (w : World) (f : File)
    (bs : list Byte.byte) :
  App.originalImage st = Some f ->
  App.prompt st <> "" ->
  file_bytes f = Some bs ->
  bs <> [] ->
  Js.includes "," (file_type f) = false ->
  exists payload,
    issued (snd (App.handleGenerate pf ai st w))
    = (issued w ++
       [(ai, mkRequest "gemini-2.5-flash-image-preview"
               [mkPart (Some (mkBlob (Some payload) (Some (file_type f))))
                       None;
                mkPart None (Some (App.prompt st))]
               [IMAGE; TEXT])])%list
    /\ Base64.decodeString payload = Some bs.
Proof.
  intros Hf Hp Hb _ Hcomma. exists (Base64.encodeString bs).
  split; [|apply decodeString_encodeString].
  rewrite (handleGenerate_settled pf ai st w f _ Hf Hp
             (encoder_payload f bs Hb Hcomma)).
  set (imagePart := mkPart _ _).
  pose proof (attempt_world pf ai imagePart (App.prompt st) w) as Hw.
  rewrite edit_run.
  destruct (GeminiService.attempt pf ai imagePart (App.prompt st) w)
    as [[e|result] w']; simpl in Hw; subst w'.
  - reflexivity.
  - unfold App.generateFinish. simpl.
    destruct (Js.truthy (image result)); reflexivity.
Qed.

Lemma generate_sends_the_file_and_the_prompt_witness :
  exists payload,
    issued (snd (App.handleGenerate (settling (inr (responseOf twoOfEach)))
                   someClient readyState pristine))
    = [(someClient,
        mkRequest "gemini-2.5-flash-image-preview"
          [mkPart (Some (mkBlob (Some payload) (Some "image/png"))) None;
           mkPart None (Some "Vintage Film")]
          [IMAGE; TEXT])]
    /\ Base64.decodeString payload
       = Some [Byte.x89; Byte.x50; Byte.x4e; Byte.x47].
Proof.
  refine (generate_sends_the_file_and_the_prompt
            (settling (inr (responseOf twoOfEach))) someClient readyState
            pristine pngFile [Byte.x89; Byte.x50; Byte.x4e; Byte.x47]
            eq_refl _ eq_refl _ eq_refl); discriminate.
Defined.

(** X16: a result can arrive for an image that is no longer the selected
    one. Selecting another image while a run is under way turns the
    spinner off and enables the button again; and when the run then settles
    with an image, that image is shown as the edit of the newly selected
    file. *)
Theorem late_result_lands_on_new_image (st : App.State) (f g : File)
    (result : EditResult) (w : World) :
  App.originalImage st = Some f ->
  App.prompt st <> "" ->
  Js.startsWith "image/" (file_type g) = true ->
  Js.truthy (image result) = true ->
  App.isLoading (fst (App.generateStart st)) = true
  /\ App.generateDisabled
       (fst (App.handleImageChange (Some g) (fst (App.generateStart st))))
     = false
  /\ App.originalImage
       (fst (App.generateFinish (inr result)
               (fst (App.handleImageChange (Some g)
                       (fst (App.generateStart st)))) w))
     = Some g
  /\ App.editedImageUrl
       (fst (App.generateFinish (inr result)
               (fst (App.handleImageChange (Some g)
                       (fst (App.generateStart st)))) w))
     = image result.
Proof.
  intros Hf Hp Hg Hi.
  rewrite (generateStart_ok st f Hf Hp).
  unfold App.handleImageChange, App.generateFinish. rewrite Hg, Hi.
  repeat split.
Qed.

Lemma late_result_lands_on_new_image_witness :
  App.originalImage
    (fst (App.generateFinish
            (inr (mkEditResult (Some "data:image/png;base64,WQ==") None))
            (fst (App.handleImageChange (Some otherPng)
                    (fst (App.generateStart readyState)))) pristine))
  = Some otherPng
  /\ App.editedImageUrl
       (fst (App.generateFinish
               (inr (mkEditResult (Some "data:image/png;base64,WQ==") None))
               (fst (App.handleImageChange (Some otherPng)
                       (fst (App.generateStart readyState)))) pristine))
     = Some "data:image/png;base64,WQ==".
Proof.
  pose proof (late_result_lands_on_new_image readyState pngFile otherPng
                (mkEditResult (Some "data:image/png;base64,WQ==") None)
                pristine eq_refl) as H.
  refine (let H' := H _ eq_refl eq_refl in proj2 (proj2 H')).
  discriminate.
Defined.

(** ** The component: what holds in every reachable state *)

Lemma step_image (st : App.State) (e : Event) :
  App.originalImage (step st e) = App.originalImage st
  \/ App.originalImage (step st e) = None
  \/ (exists f, App.originalImage (step st e) = Some f /\
                Js.startsWith "image/" (file_type f) = true).
Proof.
  destruct e as [files | files | type | value | p | | f | | outcome];
    cbn [step].
  - unfold App.handleFileSelect, App.handleImageChange.
    destruct (files !! 0%nat) as [f|]; [|left; reflexivity].
    destruct (Js.startsWith "image/" (file_type f)) eqn:E;
      [right; right; exists f; split; [reflexivity | exact E]
      | left; reflexivity].
  - unfold App.handleDrop, App.handleImageChange.
    destruct (files !! 0%nat) as [f|]; [|left; reflexivity].
    destruct (Js.startsWith "image/" (file_type f)) eqn:E;
      [right; right; exists f; split; [reflexivity | exact E]
      | left; reflexivity].
  - unfold App.handleDragEvents.
    destruct (_ || _); [left; reflexivity|].
    destruct (String.eqb _ _); left; reflexivity.
  - left; reflexivity.
  - left; reflexivity.
  - right; left; reflexivity.
  - left; reflexivity.
  - destruct (App.generateDisabled st); [left; reflexivity|].
    unfold App.generateStart.
    destruct (App.originalImage st) as [f|] eqn:E; [|left; exact E].
    destruct (negb _); left; exact E.
  - unfold App.generateFinish. destruct outcome as [err|result].
    + left; reflexivity.
    + destruct (Js.truthy (image result)); left; reflexivity.
Qed.

Lemma step_keeps_image_typed (st : App.State) (e : Event) :
  imageTyped st -> imageTyped (step st e).
Proof.
  unfold imageTyped. intros H.
  destruct (step_image st e) as [-> | [-> | (f & -> & Hf)]];
    [exact H | exact I | exact Hf].
Qed.

Lemma generateStart_some (st : App.State) (f : File) (p : string) :
  snd (App.generateStart st) = Some (f, p) ->
  App.originalImage st = Some f /\ p = App.prompt st /\ p <> "".
Proof.
  unfold App.generateStart, Js.truthy.
  destruct (App.originalImage st) as [f0|]; [|discriminate].
  destruct (String.eqb (App.prompt st) "") eqn:E; cbn [negb snd];
    [discriminate|].
  intros [= <- <-]. repeat split.
  intros Hp. rewrite Hp in E. discriminate.
Qed.

(** X17: the gate on file types holds for good. After any sequence of
    events from the initial state (selections, drops, drags, typing, quick
    prompts, clearing, clicks on Generate, and the late callbacks in any
    order and with any content), the stored image, if any, has a declared
    type that begins with "image/"; so whenever Generate goes on to the
    encoder and the adapter, it does so with such a file and with a prompt
    that is not empty. *)
Theorem only_images_reach_the_adapter (events : list Event) :
  imageTyped (run events)
  /\ (forall f p,
        snd (App.generateStart (run events)) = Some (f, p) ->
        Js.startsWith "image/" (file_type f) = true /\ p <> "").
Proof.
  assert (Hinv : imageTyped (run events)).
  { unfold run.
    assert (Hgen : forall st, imageTyped st ->
                   imageTyped (fold_left step events st)).
    { induction events as [|e events IH]; intros st Hst; [exact Hst|].
      simpl. apply IH, step_keeps_image_typed, Hst. }
    apply Hgen. exact I. }
  split; [exact Hinv|].
  intros f p Hstart.
  destruct (generateStart_some _ f p Hstart) as (Hf & _ & Hp).
  unfold imageTyped in Hinv. rewrite Hf in Hinv. auto.
Qed.

(** ** The component: quick prompts *)

(** X18: the quick-prompt buttons and the [switch] agree. Each of the six
    labels has a case of its own: it is expanded into a longer instruction,
    and no two labels share one. Any other text is used as it is, and the
    prompt that results is empty only when that text is. *)
Theorem quick_prompts_are_covered :
  (forall p, In p App.QUICK_PROMPTS ->
     App.fullPrompt p <> p /\
     (String.length p < String.length (App.fullPrompt p))%nat)
  /\ NoDup (map App.fullPrompt App.QUICK_PROMPTS)
  /\ (forall p, ~ In p App.QUICK_PROMPTS -> App.fullPrompt p = p)
  /\ (forall p, App.fullPrompt p = "" <-> p = "").
Proof.
  split; [|split; [|split]].
  - intros p Hin. simpl in Hin.
    repeat (destruct Hin as [<- | Hin];
            [split; [discriminate | apply Nat.ltb_lt; reflexivity]|]).
    contradiction.
  - apply (bool_decide_unpack _). vm_compute. reflexivity.
  - intros p Hnot. unfold App.fullPrompt.
    repeat match goal with
           | |- context [String.eqb p ?label] =>
               destruct (String.eqb_spec p label) as [Heq|_];
                 [exfalso; apply Hnot; rewrite Heq; simpl; tauto|]
           end.
    reflexivity.
  - intros p. split; [|intros ->; reflexivity].
    unfold App.fullPrompt.
    repeat match goal with
           | |- context [String.eqb p ?label] =>
               destruct (String.eqb p label); [discriminate|]
           end.
    auto.
Qed.

(** X19: an image, then a quick prompt, then Generate. Once an image file
    is accepted and a non-empty quick prompt is clicked, the button is
    enabled and a click on it goes on with that very file and with the
    expanded prompt, whatever the state was before. *)
Theorem quick_prompt_then_generate (st : App.State) (f : File) (p : string) :
  Js.startsWith "image/" (file_type f) = true ->
  p <> "" ->
  App.generateDisabled
    (App.handleQuickPrompt p (fst (App.handleImageChange (Some f) st)))
  = false
  /\ snd (App.generateStart
            (App.handleQuickPrompt p
               (fst (App.handleImageChange (Some f) st))))
     = Some (f, App.fullPrompt p).
Proof.
  intros Hf Hp. unfold App.handleImageChange. rewrite Hf.
  split; [reflexivity|].
  unfold App.generateStart, App.handleQuickPrompt, Js.truthy.
  cbn [App.originalImage App.setPrompt App.prompt fst].
  destruct (String.eqb (App.fullPrompt p) "") eqn:E; [|reflexivity].
  apply String.eqb_eq in E.
  destruct (App.fullPrompt p) eqn:Efull; [|discriminate].
  exfalso. apply Hp.
  revert Efull. unfold App.fullPrompt.
  repeat match goal with
         | |- context [String.eqb p ?label] =>
             destruct (String.eqb p label); [discriminate|]
         end.
  auto.
Qed.

Lemma quick_prompt_then_generate_witness :
  App.generateDisabled
    (App.handleQuickPrompt "Vintage Film"
       (fst (App.handleImageChange (Some pngFile) App.initial)))
  = false
  /\ snd (App.generateStart
            (App.handleQuickPrompt "Vintage Film"
               (fst (App.handleImageChange (Some pngFile) App.initial))))
     = Some (pngFile,
             "Give this photo a vintage film look. Add grain, slightly fade the colors, and apply a color cast reminiscent of old film stock.").
Proof.
  refine (quick_prompt_then_generate App.initial pngFile "Vintage Film"
            eq_refl _).
  discriminate.
Defined.

(** ** The component: what a failed run leaves on the console *)

(** X20: a run of Generate whose adapter call fails leaves two lines on the
    console, in this order: the adapter's, with the error as it was thrown
    inside the adapter, and the handler's, with the error the adapter
    raised instead, whose message is the one the page shows. A run whose
    call succeeds leaves none. *)
Theorem failed_run_logs_twice (pf : Platform) (ai : GoogleGenAI)
    (st : App.State) (w : World) (f : File) (bs : list Byte.byte) :
  App.originalImage st = Some f ->
  App.prompt st <> "" ->
  file_bytes f = Some bs ->
  exists imagePart,
    ImageUtils.fileToGenerativePart f = Resolved imagePart /\
    match fst (GeminiService.attempt pf ai imagePart (App.prompt st) w) with
    | inl e =>
        exists message,
          console (snd (App.handleGenerate pf ai st w))
          = (console w ++
             [("Error calling Gemini API:", e); ("", Js.Error message)])%list
          /\ App.error (fst (App.handleGenerate pf ai st w)) = Some message
    | inr _ => console (snd (App.handleGenerate pf ai st w)) = console w
    end.
Proof.
  intros Hf Hp Hb.
  destruct (encoder_resolves f bs Hb) as [imagePart Henc].
  exists imagePart. split; [exact Henc|].
  rewrite (handleGenerate_settled pf ai st w f imagePart Hf Hp Henc).
  pose proof (attempt_world pf ai imagePart (App.prompt st) w) as Hw.
  rewrite edit_run.
  destruct (GeminiService.attempt pf ai imagePart (App.prompt st) w)
    as [[e|result] w']; simpl in Hw; subst w'.
  - eexists. simpl. rewrite <- app_assoc. split; reflexivity.
  - unfold App.generateFinish. simpl.
    destruct (Js.truthy (image result)); reflexivity.
Qed.

Lemma failed_run_logs_twice_witness :
  exists imagePart,
    ImageUtils.fileToGenerativePart pngFile = Resolved imagePart /\
    match fst (GeminiService.attempt
                 (settling (inl (Js.Error "socket hang up"))) someClient
                 imagePart (App.prompt readyState) pristine) with
    | inl e =>
        exists message,
          console (snd (App.handleGenerate
                          (settling (inl (Js.Error "socket hang up")))
                          someClient readyState pristine))
          = ([] ++
             [("Error calling Gemini API:", e); ("", Js.Error message)])%list
          /\ App.error
               (fst (App.handleGenerate
                       (settling (inl (Js.Error "socket hang up")))
                       someClient readyState pristine)) = Some message
    | inr _ =>
        console (snd (App.handleGenerate
                        (settling (inl (Js.Error "socket hang up")))
                        someClient readyState pristine)) = []
    end.
Proof.
  refine (failed_run_logs_twice
            (settling (inl (Js.Error "socket hang up"))) someClient
            readyState pristine pngFile
            [Byte.x89; Byte.x50; Byte.x4e; Byte.x47] eq_refl _ eq_refl).
  discriminate.
Defined.
